(** * serve-web.py: the Alfred static asset gateway

    A shallow embedding of [serve-web.py] and of the parts of the Python
    standard library its handler runs ([http.server], [posixpath],
    [json], [html]), followed by the properties of the server.

    Conventions.
    - A Python [str] whose characters are below 256 (the request line is
      decoded as ISO-8859-1) is a [string].
    - A request is one that [parse_request] accepted with an HTTP/1.x
      version; the HTTP/0.9 simple-request form is outside the model.
    - Logging to standard error ([log_request], [log_error], and the
      traceback the server prints for an exception a handler lets
      through) is not modelled.
    - The client reads the whole reply: a write to the connection does
      not fail.
    - A method of the handler either returns or raises: the
      exceptions the library code does not catch ([ValueError] from
      [open] and [urlsplit], [UnicodeEncodeError] from the encoding of
      a listing) end the method where they are raised.
    - Library functions that reach into locale, MIME tables or date
      parsing are fields of the class [Platform]; every theorem holds
      for every instance. *)

From Stdlib Require Import String Ascii List ZArith Lia Bool DecimalString.
Import ListNotations.
Open Scope string_scope.
Open Scope Z_scope.

Set Implicit Arguments.

(** ** Python built-ins on [str] *)

Module Py.

Definition chr (n : nat) : string := String (ascii_of_nat n) "".

(** The double quote and the line feed, which a literal cannot hold
    conveniently. *)
Definition dquote : string := chr 34.
Definition nl : string := chr 10.

(** [s.startswith(p)] *)
Fixpoint startswith (s p : string) {struct p} : bool :=
  match p, s with
  | "", _ => true
  | String a p', String b s' => Ascii.eqb a b && startswith s' p'
  | String _ _, "" => false
  end.

(** [s.endswith(suf)]: [s] is [suf], or the tail of [s] ends with
    [suf]. *)
Fixpoint endswith (s suf : string) : bool :=
  String.eqb s suf ||
  match s with
  | "" => false
  | String _ s' => endswith s' suf
  end.

(** The scan of [s.replace(old, new)] for a non-empty [old]: [skip]
    counts the characters of the occurrence being replaced that are
    still to be dropped. *)
Fixpoint replace_scan (old new s : string) (skip : nat) : string :=
  match s with
  | "" => ""
  | String c s' =>
      match skip with
      | S k => replace_scan old new s' k
      | O =>
          if startswith s old
          then new ++ replace_scan old new s' (String.length old - 1)
          else String c (replace_scan old new s' 0)
      end
  end.

(** [new.join(s)] with [new] also at both ends: what [replace] does
    for the empty [old]. *)
Fixpoint intersperse (new s : string) : string :=
  match s with
  | "" => new
  | String c s' => new ++ String c (intersperse new s')
  end.

(** [s.replace(old, new)]: every non-overlapping occurrence, scanning
    from the left. *)
Definition replace (s old new : string) : string :=
  match old with
  | "" => intersperse new s
  | _ => replace_scan old new s 0
  end.

(** [s.split(c, 1)[0]]: the part of [s] before the first [c]. *)
Fixpoint before (c : ascii) (s : string) : string :=
  match s with
  | "" => ""
  | String a s' => if Ascii.eqb a c then "" else String a (before c s')
  end.

(** [s.split(c)] for a one-character separator. *)
Fixpoint split (c : ascii) (s : string) : list string :=
  match s with
  | "" => [""]
  | String a s' =>
      if Ascii.eqb a c then "" :: split c s'
      else match split c s' with
           | w :: ws => String a w :: ws
           | [] => [String a ""]
           end
  end.

(** [sep.join(words)] *)
Fixpoint join (sep : string) (words : list string) : string :=
  match words with
  | [] => ""
  | [w] => w
  | w :: ws => w ++ sep ++ join sep ws
  end.

(** [str.isspace] on one character below 256. *)
Definition isspace (a : ascii) : bool :=
  let n := nat_of_ascii a in
  ((9 <=? n) && (n <=? 13) || (28 <=? n) && (n <=? 32)
   || (n =? 133) || (n =? 160))%nat.

(** [s.rstrip()] *)
Fixpoint rstrip (s : string) : string :=
  match s with
  | "" => ""
  | String a s' =>
      match rstrip s' with
      | "" => if isspace a then "" else String a ""
      | t => String a t
      end
  end.

(** [s.rstrip('/')]-style stripping of one trailing character. *)
Fixpoint rstrip_char (c : ascii) (s : string) : string :=
  match s with
  | "" => ""
  | String a s' =>
      match rstrip_char c s' with
      | "" => if Ascii.eqb a c then "" else String a ""
      | t => String a t
      end
  end.

(** [c.lower()] and [s.lower()] on ASCII letters. *)
Definition lower_char (a : ascii) : ascii :=
  let n := nat_of_ascii a in
  if ((65 <=? n) && (n <=? 90))%nat then ascii_of_nat (n + 32) else a.

Fixpoint lower (s : string) : string :=
  match s with
  | "" => ""
  | String a s' => String (lower_char a) (lower s')
  end.

(** [str(n)] and ["%d" % n] for an [int]. *)
Definition str (n : Z) : string := NilZero.string_of_int (Z.to_int n).

(** [len(s)] *)
Definition len (s : string) : Z := Z.of_nat (String.length s).

(** [s.encode('utf-8')] and its length: a character below 128 is one
    byte, one in 128..255 two bytes. *)
Fixpoint encode (s : string) : string :=
  match s with
  | "" => ""
  | String a s' =>
      let n := nat_of_ascii a in
      if (n <? 128)%nat then String a (encode s')
      else String (ascii_of_nat (192 + n / 64))
             (String (ascii_of_nat (128 + n mod 64)) (encode s'))
  end.

(** [old in s] *)
Fixpoint contains (s old : string) : bool :=
  startswith s old ||
  match s with
  | "" => false
  | String _ s' => contains s' old
  end.

(** [any(c == x for x in s)] *)
Fixpoint contains_char (c : ascii) (s : string) : bool :=
  match s with
  | "" => false
  | String a s' => Ascii.eqb a c || contains_char c s'
  end.

End Py.

(** ** [posixpath] *)

Module PosixPath.

(** [sep * n] *)
Fixpoint seps (n : nat) : string :=
  match n with
  | O => ""
  | S k => "/" ++ seps k
  end.

(** [posixpath.join(a, b)] *)
Definition join (a b : string) : string :=
  if Py.startswith b "/" then b
  else if String.eqb a "" || Py.endswith a "/" then a ++ b
  else a ++ "/" ++ b.

(** [p[:p.rfind('/') + 1]] *)
Fixpoint head_of (p : string) : string :=
  match p with
  | "" => ""
  | String a p' =>
      if Py.contains_char "/" p then String a (head_of p') else ""
  end.

(** [posixpath.dirname(p)] *)
Definition dirname (p : string) : string :=
  let head := head_of p in
  if negb (String.eqb head "")
     && negb (String.eqb head (seps (String.length head)))
  then Py.rstrip_char "/" head
  else head.

(** One turn of the loop of [normpath] over [comps]; [new_comps] is
    kept with its last element first. *)
Definition normpath_step (initial_slashes : nat)
    (new_comps : list string) (comp : string) : list string :=
  if String.eqb comp "" || String.eqb comp "." then new_comps
  else if negb (String.eqb comp "..")
          || (Nat.eqb initial_slashes 0
              && match new_comps with [] => true | _ => false end)
          || match new_comps with
             | top :: _ => String.eqb top ".."
             | [] => false
             end
       then comp :: new_comps
       else match new_comps with
            | _ :: rest => rest
            | [] => new_comps
            end.

(** [posixpath.normpath(path)] *)
Definition normpath (path : string) : string :=
  if String.eqb path "" then "."
  else
    let initial_slashes :=
      if Py.startswith path "/"
      then if Py.startswith path "//" && negb (Py.startswith path "///")
           then 2%nat else 1%nat
      else 0%nat in
    let comps := Py.split "/" path in
    let new_comps := fold_left (normpath_step initial_slashes) comps [] in
    let path := seps initial_slashes ++ Py.join "/" (rev new_comps) in
    if String.eqb path "" then "." else path.

End PosixPath.

(** ** [html.escape(s, quote=False)] *)

Module Html.

Definition escape (s : string) : string :=
  let s := Py.replace s "&" "&amp;" in
  let s := Py.replace s "<" "&lt;" in
  Py.replace s ">" "&gt;".

End Html.

(** ** [json.dumps] on dictionaries of strings *)

Module Json.

#[local] Set Warnings "-register-all".

Inductive value : Type :=
| Str (s : string)
| Dict (items : list (string * value)).

Definition hex_digit (n : nat) : ascii :=
  if (n <? 10)%nat then ascii_of_nat (48 + n) else ascii_of_nat (87 + n).

(** [ESCAPE_DCT] with the [\uXXXX] fallback of
    [py_encode_basestring_ascii], for a character below 256. *)
Definition escape_char (a : ascii) : string :=
  let n := nat_of_ascii a in
  if (n =? 92)%nat then Py.chr 92 ++ Py.chr 92
  else if (n =? 34)%nat then Py.chr 92 ++ Py.dquote
  else if (n =? 8)%nat then Py.chr 92 ++ "b"
  else if (n =? 12)%nat then Py.chr 92 ++ "f"
  else if (n =? 10)%nat then Py.chr 92 ++ "n"
  else if (n =? 13)%nat then Py.chr 92 ++ "r"
  else if (n =? 9)%nat then Py.chr 92 ++ "t"
  else if ((32 <=? n) && (n <=? 126))%nat then String a ""
  else Py.chr 92 ++ "u00"
       ++ String (hex_digit (n / 16)) (String (hex_digit (n mod 16)) "").

Fixpoint escape (s : string) : string :=
  match s with
  | "" => ""
  | String a s' => escape_char a ++ escape s'
  end.

(** [encode_basestring_ascii(s)] *)
Definition encode_basestring_ascii (s : string) : string :=
  Py.dquote ++ escape s ++ Py.dquote.

(** [json.dumps(v)] with the default separators [', '] and [': ']. *)
Fixpoint dumps (v : value) : string :=
  match v with
  | Str s => encode_basestring_ascii s
  | Dict items =>
      "{" ++ Py.join ", "
               (map (fun kv : string * value =>
                       let (k, x) := kv in
                       encode_basestring_ascii k ++ ": " ++ dumps x)
                    items)
          ++ "}"
  end.

End Json.

(** ** The data of one HTTP exchange *)

(** What the handler writes to the connection, in order: the status
    line, the header lines, the blank line that ends them, and the
    bytes of the body. *)
Inductive wire : Type :=
| StatusLine (version : string) (code : Z) (message : string)
| HeaderLine (keyword value : string)
| EndHeaders
| Payload (data : string).

(** The result of [urllib.parse.urlsplit]. *)
Record SplitResult : Type := mkSplit {
  scheme : string;
  netloc : string;
  url_path : string;
  query : string;
  fragment : string
}.

(** The exceptions the handler lets through to the server. *)
Inductive exception : Type :=
| ValueError
| UnicodeEncodeError.

(** What a call ends with: the value it returns, or the exception it
    raises. *)
Inductive result (A : Type) : Type :=
| Return (a : A)
| Raise (e : exception).

Arguments Raise {A} e.

(** An open file: its bytes and the modification time [os.fstat]
    reports, in whole seconds. *)
Record File : Type := mkFile {
  content : string;
  st_mtime : Z
}.

(** What the process reads from outside while it serves one request:
    the clock, as [date_time_string()] formats it, and the file system.
    [open_rb] is [None] when [open(path, 'rb')] raises; it then
    raises an [OSError], which [send_head] catches, unless
    [open_raises] names another exception ([ValueError] for a path
    with a NUL in it, [UnicodeEncodeError] for one that does not
    encode), which [send_head] does not catch. [os.path.isdir] and
    [os.path.isfile] catch both and answer [False].
    [list_directory_page path display] is what the body of
    [list_directory] comes to before it sends anything: the encoded
    page it builds from [os.listdir(path)], [None] when [os.listdir]
    raises [OSError], or the exception the encoding of the page
    raises. The sorting of the names, the tests of each of them
    ([os.path.isdir], [os.path.islink]) and the escaping are inside
    it. *)
Record World : Type := mkWorld {
  date_time_string : string;
  isdir : string -> bool;
  isfile : string -> bool;
  open_rb : string -> option File;
  open_raises : string -> option exception;
  list_directory_page : string -> string -> result (option string)
}.

(** The calls to the file system, by the path they name. *)
Inductive fs_call : Type :=
| IsDir (p : string)
| IsFile (p : string)
| Open (p : string)
| ListDir (p : string).

Definition call_path (c : fs_call) : string :=
  match c with
  | IsDir p | IsFile p | Open p | ListDir p => p
  end.

(** Library functions left abstract. [urlsplit u] is the value of
    [urllib.parse.urlsplit(u)] or the [ValueError] it raises (for a
    bracket without its partner in the host part, for instance).
    [parsedate_utc v] is the time of an [If-Modified-Since] value that
    [parsedate_to_datetime] accepts and that is in UTC (or without a
    zone), and [None] otherwise. *)
Class Platform : Type := mkPlatform {
  sys_version : string;
  unquote : string -> string;
  urlsplit : string -> result SplitResult;
  urlunsplit : SplitResult -> string;
  guess_type : string -> string;
  repr : string -> string;
  getfilesystemencoding : string;
  http_date : Z -> string;
  parsedate_utc : string -> option Z
}.

(** A request as [parse_request] leaves it: [self.command],
    [self.path], [self.headers], and the body still unread in
    [self.rfile]. *)
Record Request : Type := mkRequest {
  r_command : string;
  r_path : string;
  r_headers : list (string * string);
  r_body : string
}.

(** The module-level names of [serve-web.py]. *)
Record Globals : Type := mkGlobals {
  PORT : Z;
  DIRECTORY : string
}.

(** The attributes of a handler object. *)
Record Handler : Type := mkHandler {
  command : string;
  path : string;
  headers : list (string * string);
  rfile : string;
  directory : string;
  close_connection : bool;
  headers_buffer : list wire;
  wfile : list wire
}.

(** The state a method of the handler runs in: the module globals, the
    handler itself, and the file system calls made so far. *)
Record Proc : Type := mkProc {
  globals : Globals;
  self : Handler;
  calls : list fs_call
}.

(** ** The state monad of the handler's methods *)

Definition M (A : Type) : Type := Proc -> result A * Proc.

Definition ret {A : Type} (a : A) : M A := fun s => (Return a, s).

(** [raise e]: the rest of the method is not run. *)
Definition raise {A : Type} (e : exception) : M A := fun s => (Raise e, s).

Definition bind {A B : Type} (m : M A) (k : A -> M B) : M B :=
  fun s =>
    match m s with
    | (Return a, s') => k a s'
    | (Raise e, s') => (Raise e, s')
    end.

Declare Scope monad_scope.
Delimit Scope monad_scope with monad.
Notation "x <- m ;; k" := (bind m (fun x => k))
  (at level 61, m at next level, right associativity) : monad_scope.
Notation "m ;; k" := (bind m (fun _ => k))
  (at level 61, right associativity) : monad_scope.
Open Scope monad_scope.

(** [self.name], read. *)
Definition attr {A : Type} (name : Handler -> A) : M A :=
  fun s => (Return (name (self s)), s).

(** An assignment to attributes of [self]. *)
Definition modify_self (f : Handler -> Handler) : M unit :=
  fun s => (Return tt, mkProc (globals s) (f (self s)) (calls s)).

(** A library call inside a method: its value, or its exception. *)
Definition call {A : Type} (r : result A) : M A :=
  match r with
  | Return a => ret a
  | Raise e => raise e
  end.

Definition get_globals : M Globals := fun s => (Return (globals s), s).

Definition set_globals (g : Globals) : M unit :=
  fun s => (Return tt, mkProc g (self s) (calls s)).

Definition log_call (c : fs_call) : M unit :=
  fun s => (Return tt, mkProc (globals s) (self s) (calls s ++ [c])).

(** The attribute that an assignment changes. *)
Definition with_path (p : string) (h : Handler) : Handler :=
  mkHandler (command h) p (headers h) (rfile h) (directory h)
    (close_connection h) (headers_buffer h) (wfile h).

Definition with_close_connection (b : bool) (h : Handler) : Handler :=
  mkHandler (command h) (path h) (headers h) (rfile h) (directory h)
    b (headers_buffer h) (wfile h).

Definition with_headers_buffer (l : list wire) (h : Handler) : Handler :=
  mkHandler (command h) (path h) (headers h) (rfile h) (directory h)
    (close_connection h) l (wfile h).

Definition with_wfile (l : list wire) (h : Handler) : Handler :=
  mkHandler (command h) (path h) (headers h) (rfile h) (directory h)
    (close_connection h) (headers_buffer h) l.

Definition with_rfile (b : string) (h : Handler) : Handler :=
  mkHandler (command h) (path h) (headers h) b (directory h)
    (close_connection h) (headers_buffer h) (wfile h).

(** [self.path], for where a local variable is called [path]. *)
Definition self_path (h : Handler) : string := path h.

(** [self.rfile.read()]: what a handler that consumed the body would
    call. *)
Definition rfile_read : M string :=
  b <- attr rfile ;;
  modify_self (with_rfile "") ;;
  ret b.

(** [self.wfile.write(data)] *)
Definition wfile_write (data : list wire) : M unit :=
  modify_self (fun h => with_wfile (wfile h ++ data) h).

(** ** [http.server.BaseHTTPRequestHandler] *)

(** [BaseHTTPRequestHandler.responses], on the status codes this
    server sends. *)
Definition responses (code : Z) : option (string * string) :=
  if code =? 200 then Some ("OK", "Request fulfilled, document follows")
  else if code =? 301
  then Some ("Moved Permanently", "Object moved permanently -- see URI list")
  else if code =? 304
  then Some ("Not Modified", "Document has not changed since given time")
  else if code =? 404 then Some ("Not Found", "Nothing matches the given URI")
  else if code =? 501
  then Some ("Not Implemented", "Server does not support this operation")
  else if code =? 503
  then Some ("Service Unavailable",
             "The server cannot process the request due to a high load")
  else None.

Definition protocol_version : string := "HTTP/1.0".

(** [SimpleHTTPRequestHandler.server_version] *)
Definition server_version : string := "SimpleHTTP/0.6".

Definition error_content_type : string := "text/html;charset=utf-8".

(** [error_message_format % {'code': code, 'message': message,
    'explain': explain}] with [DEFAULT_ERROR_MESSAGE]. *)
Definition error_message_format (code : Z) (message explain : string)
  : string :=
  "<!DOCTYPE HTML>" ++ Py.nl
  ++ "<html lang=" ++ Py.dquote ++ "en" ++ Py.dquote ++ ">" ++ Py.nl
  ++ "    <head>" ++ Py.nl
  ++ "        <meta charset=" ++ Py.dquote ++ "utf-8" ++ Py.dquote ++ ">"
  ++ Py.nl
  ++ "        <title>Error response</title>" ++ Py.nl
  ++ "    </head>" ++ Py.nl
  ++ "    <body>" ++ Py.nl
  ++ "        <h1>Error response</h1>" ++ Py.nl
  ++ "        <p>Error code: " ++ Py.str code ++ "</p>" ++ Py.nl
  ++ "        <p>Message: " ++ message ++ ".</p>" ++ Py.nl
  ++ "        <p>Error code explanation: " ++ Py.str code ++ " - "
  ++ explain ++ ".</p>" ++ Py.nl
  ++ "    </body>" ++ Py.nl
  ++ "</html>" ++ Py.nl.

(** [name in self.headers] and [self.headers[name]]: header names
    compare without case. *)
Fixpoint header_get (name : string) (hs : list (string * string))
  : option string :=
  match hs with
  | [] => None
  | (k, v) :: hs' =>
      if String.eqb (Py.lower k) (Py.lower name) then Some v
      else header_get name hs'
  end.

Definition header_in (name : string) (hs : list (string * string)) : bool :=
  match header_get name hs with
  | Some _ => true
  | None => false
  end.

Section BaseHTTPRequestHandler.

Context {platform : Platform}.
Variable w : World.

(** [self.version_string()] *)
Definition version_string : string := server_version ++ " " ++ sys_version.

(** [self._headers_buffer.append(line)] *)
Definition buffer_append (line : wire) : M unit :=
  modify_self (fun h => with_headers_buffer (headers_buffer h ++ [line]) h).

Definition send_response_only (code : Z) (message : option string)
  : M unit :=
  let message :=
    match message with
    | Some m => m
    | None => match responses code with
              | Some (shortmsg, _) => shortmsg
              | None => ""
              end
    end in
  buffer_append (StatusLine protocol_version code message).

Definition send_header (keyword value : string) : M unit :=
  buffer_append (HeaderLine keyword value) ;;
  if String.eqb (Py.lower keyword) "connection" then
    if String.eqb (Py.lower value) "close"
    then modify_self (with_close_connection true)
    else if String.eqb (Py.lower value) "keep-alive"
         then modify_self (with_close_connection false)
         else ret tt
  else ret tt.

Definition send_response (code : Z) (message : option string) : M unit :=
  send_response_only code message ;;
  send_header "Server" version_string ;;
  send_header "Date" (date_time_string w).

Definition flush_headers : M unit :=
  buffer <- attr headers_buffer ;;
  wfile_write buffer ;;
  modify_self (with_headers_buffer []).

Definition end_headers : M unit :=
  buffer_append EndHeaders ;;
  flush_headers.

Definition send_error (code : Z) (message explain : option string)
  : M unit :=
  let (shortmsg, longmsg) :=
    match responses code with
    | Some sl => sl
    | None => ("???", "???")
    end in
  let message := match message with Some m => m | None => shortmsg end in
  let explain := match explain with Some e => e | None => longmsg end in
  send_response code (Some message) ;;
  send_header "Connection" "close" ;;
  body <-
    (if (code >=? 200)
        && negb ((code =? 204) || (code =? 205) || (code =? 304))
     then
       let content :=
         error_message_format code (Html.escape message)
           (Html.escape explain) in
       let body := Py.encode content in
       send_header "Content-Type" error_content_type ;;
       send_header "Content-Length" (Py.str (Py.len body)) ;;
       ret (Some body)
     else ret None) ;;
  end_headers ;;
  command <- attr command ;;
  match body with
  | Some b =>
      if negb (String.eqb command "HEAD") && negb (String.eqb b "")
      then wfile_write [Payload b]
      else ret tt
  | None => ret tt
  end.

End BaseHTTPRequestHandler.

(** ** [http.server.SimpleHTTPRequestHandler] *)

Section SimpleHTTPRequestHandler.

Context {platform : Platform}.
Variable w : World.

(** The loop of [translate_path] over [words]. *)
Definition translate_step (path word : string) : string :=
  if negb (String.eqb (PosixPath.dirname word) "")
     || String.eqb word "." || String.eqb word ".."
  then path
  else PosixPath.join path word.

Definition translate_path (directory path : string) : string :=
  let path := Py.before "?" path in
  let path := Py.before "#" path in
  let trailing_slash := Py.endswith (Py.rstrip path) "/" in
  let path := unquote path in
  let path := PosixPath.normpath path in
  let words := Py.split "/" path in
  let words := filter (fun x => negb (String.eqb x "")) words in
  let path := fold_left translate_step words directory in
  if trailing_slash then path ++ "/" else path.

Definition os_path_isdir (p : string) : M bool :=
  log_call (IsDir p) ;; ret (isdir w p).

Definition os_path_isfile (p : string) : M bool :=
  log_call (IsFile p) ;; ret (isfile w p).

(** [open(p, 'rb')] under [try ... except OSError]: the file, [None]
    for the [except] clause, or the exception that clause does not
    catch. *)
Definition open (p : string) : M (option File) :=
  log_call (Open p) ;;
  match open_rb w p with
  | Some f => ret (Some f)
  | None =>
      match open_raises w p with
      | Some e => raise e
      | None => ret None
      end
  end.

(** [list_directory(path)]; the result is the bytes of the page. *)
Definition list_directory (path : string) : M (option string) :=
  url <- attr self_path ;;
  log_call (ListDir path) ;;
  page <- call (list_directory_page w path url) ;;
  match page with
  | None =>
      send_error w 404 (Some "No permission to list directory") None ;;
      ret None
  | Some encoded =>
      send_response w 200 None ;;
      send_header "Content-type"
        ("text/html; charset=" ++ getfilesystemencoding) ;;
      send_header "Content-Length" (Py.str (Py.len encoded)) ;;
      end_headers ;;
      ret (Some encoded)
  end.

(** [send_head] from [ctype = self.guess_type(path)] on. *)
Definition send_head_file (path : string) : M (option string) :=
  let ctype := guess_type path in
  if Py.endswith path "/" then
    send_error w 404 (Some "File not found") None ;; ret None
  else
    f <- open path ;;
    match f with
    | None => send_error w 404 (Some "File not found") None ;; ret None
    | Some f =>
        headers <- attr headers ;;
        let not_modified :=
          if header_in "If-Modified-Since" headers
             && negb (header_in "If-None-Match" headers)
          then match header_get "If-Modified-Since" headers with
               | Some v =>
                   match parsedate_utc v with
                   | Some ims => st_mtime f <=? ims
                   | None => false
                   end
               | None => false
               end
          else false in
        if not_modified then
          send_response w 304 None ;; end_headers ;; ret None
        else
          send_response w 200 None ;;
          send_header "Content-type" ctype ;;
          send_header "Content-Length" (Py.str (Py.len (content f))) ;;
          send_header "Last-Modified" (http_date (st_mtime f)) ;;
          end_headers ;;
          ret (Some (content f))
    end.

Definition send_head : M (option string) :=
  directory <- attr directory ;;
  url <- attr self_path ;;
  let path := translate_path directory url in
  d <- os_path_isdir path ;;
  if d then
    parts <- call (urlsplit url) ;;
    if negb (Py.endswith (url_path parts) "/") then
      send_response w 301 None ;;
      let new_parts :=
        mkSplit (scheme parts) (netloc parts) (url_path parts ++ "/")
          (query parts) (fragment parts) in
      let new_url := urlunsplit new_parts in
      send_header "Location" new_url ;;
      send_header "Content-Length" "0" ;;
      end_headers ;;
      ret None
    else
      let index := PosixPath.join path "index.html" in
      b <- os_path_isfile index ;;
      if b then send_head_file index
      else
        let index := PosixPath.join path "index.htm" in
        b <- os_path_isfile index ;;
        if b then send_head_file index
        else list_directory path
  else send_head_file path.

(** [copyfile(f, self.wfile)] *)
Definition copyfile (data : string) : M unit := wfile_write [Payload data].

Definition Simple_do_GET : M unit :=
  f <- send_head ;;
  match f with
  | Some data => copyfile data
  | None => ret tt
  end.

Definition do_HEAD : M unit :=
  f <- send_head ;;
  ret tt.

End SimpleHTTPRequestHandler.

(** ** [serve-web.py] *)

(** [PORT = 8080] and [DIRECTORY = "Sources/GUI/Resources"]. *)
Definition module_globals : Globals :=
  mkGlobals 8080 "Sources/GUI/Resources".

(** The body [do_POST] sends under ['/api/']:
    [{"error": "Swift backend not running. Use CLI instead: swift run alfred"}]
    as a Python dictionary. *)
Definition response : Json.value :=
  Json.Dict
    [("error",
      Json.Str
        "Swift backend not running. Use CLI instead: swift run alfred")].

Section AlfredHTTPRequestHandler.

Context {platform : Platform}.
Variable w : World.

Definition do_GET : M unit :=
  path <- attr path ;;
  if Py.startswith path "/web/" then
    modify_self (fun h => with_path (Py.replace (self_path h) "/web/" "/") h) ;;
    Simple_do_GET w
  else
    send_error w 404 (Some "Not found") None.

Definition do_POST : M unit :=
  path <- attr path ;;
  if Py.startswith path "/api/" then
    send_response w 503 None ;;
    send_header "Content-type" "application/json" ;;
    end_headers ;;
    wfile_write [Payload (Py.encode (Json.dumps response))]
  else
    send_error w 404 (Some "Not found") None.

(** [getattr(self, mname)] when [hasattr(self, mname)]: the class
    defines [do_GET] and [do_POST] and inherits [do_HEAD]. *)
Definition method (mname : string) : option (M unit) :=
  if String.eqb mname "do_GET" then Some do_GET
  else if String.eqb mname "do_POST" then Some do_POST
  else if String.eqb mname "do_HEAD" then Some (do_HEAD w)
  else None.

(** [handle_one_request], after [parse_request] has succeeded. *)
Definition handle_one_request : M unit :=
  command <- attr command ;;
  let mname := "do_" ++ command in
  match method mname with
  | None =>
      send_error w 501
        (Some ("Unsupported method (" ++ repr command ++ ")")) None
  | Some m => m
  end.

End AlfredHTTPRequestHandler.

(** What one connection leaves behind: the bytes written to it, the
    part of the request never read, and the file system calls made. *)
Record Exchange : Type := mkExchange {
  written : list wire;
  unread : string;
  fs_calls : list fs_call;
  closing : bool
}.

(** The handler object as [__init__] and [parse_request] set it up:
    [directory=DIRECTORY], the request line and headers parsed, nothing
    buffered or written, no file system call made. *)
Definition new_handler (r : Request) (g : Globals) : Proc :=
  mkProc g
    (mkHandler (r_command r) (r_path r) (r_headers r) (r_body r)
       (DIRECTORY g) true [] [])
    [].

(** [AlfredHTTPRequestHandler(request, client_address, server)]: the
    constructor passes [directory=DIRECTORY] and then handles the
    request. With [protocol_version] ["HTTP/1.0"], [parse_request]
    leaves [close_connection] true, so [handle] runs
    [handle_one_request] once. An exception the handler raises is
    caught by the server ([_handle_request_noblock]), which closes
    the connection and goes on. *)
Definition AlfredHTTPRequestHandler {platform : Platform}
    (w : World) (r : Request) (g : Globals) : Globals * Exchange :=
  let (_, s) := handle_one_request w (new_handler r g) in
  (globals s,
   mkExchange (wfile (self s)) (rfile (self s)) (calls s)
     (close_connection (self s))).

(** [socketserver.TCPServer]: a stream socket bound to
    [server_address]; the empty host is [INADDR_ANY]. *)
Inductive socket_kind : Type := SOCK_STREAM | SOCK_DGRAM.

Record TCPServer : Type := mkServer {
  server_address : string * Z;
  socket_type : socket_kind
}.

(** [socketserver.TCPServer(("", PORT), AlfredHTTPRequestHandler)] *)
Definition httpd (g : Globals) : TCPServer :=
  mkServer ("", PORT g) SOCK_STREAM.

(** [httpd.serve_forever()] over the connections that arrive, each
    with the world it is served in: one connection at a time, a new
    handler for each. *)
Fixpoint serve_forever {platform : Platform} (g : Globals)
    (connections : list (World * Request)) : Globals * list Exchange :=
  match connections with
  | [] => (g, [])
  | (w, r) :: rest =>
      let (g', e) := AlfredHTTPRequestHandler w r g in
      let (g'', es) := serve_forever g' rest in
      (g'', e :: es)
  end.

(** One request on a freshly started server: what the connection
    leaves behind, and the response in it. *)
Definition exchange {platform : Platform} (w : World) (r : Request)
  : Exchange :=
  snd (AlfredHTTPRequestHandler w r module_globals).

Definition respond {platform : Platform} (w : World) (r : Request)
  : list wire :=
  written (exchange w r).

(** How the method of the handler ends for that request: it returns,
    or it raises the exception that the server then catches and
    logs. *)
Definition handler_result {platform : Platform} (w : World) (r : Request)
  : result unit :=
  fst (handle_one_request w (new_handler r module_globals)).

(** ** Reading a response *)

Fixpoint status_of (out : list wire) : option Z :=
  match out with
  | [] => None
  | StatusLine _ code _ :: _ => Some code
  | _ :: out' => status_of out'
  end.

Fixpoint reason_of (out : list wire) : option string :=
  match out with
  | [] => None
  | StatusLine _ _ message :: _ => Some message
  | _ :: out' => reason_of out'
  end.

Fixpoint header_of (keyword : string) (out : list wire) : option string :=
  match out with
  | [] => None
  | HeaderLine k v :: out' =>
      if String.eqb k keyword then Some v else header_of keyword out'
  | _ :: out' => header_of keyword out'
  end.

Fixpoint body_of (out : list wire) : string :=
  match out with
  | [] => ""
  | Payload data :: out' => data ++ body_of out'
  | _ :: out' => body_of out'
  end.

(** The reply [send_error(code, message)] writes for a request that is
    not [HEAD], for a [code] with a body. *)
Definition error_reply {platform : Platform} (w : World) (code : Z)
    (message explain : string) : list wire :=
  let body :=
    Py.encode (error_message_format code (Html.escape message)
                 (Html.escape explain)) in
  [StatusLine "HTTP/1.0" code message;
   HeaderLine "Server" version_string;
   HeaderLine "Date" (date_time_string w);
   HeaderLine "Connection" "close";
   HeaderLine "Content-Type" "text/html;charset=utf-8";
   HeaderLine "Content-Length" (Py.str (Py.len body));
   EndHeaders;
   Payload body].

(** The body of the reply of [do_POST] under ['/api/'], character by
    character. *)
Definition unavailable_body : string :=
  "{" ++ Py.dquote ++ "error" ++ Py.dquote ++ ": " ++ Py.dquote
  ++ "Swift backend not running. Use CLI instead: swift run alfred"
  ++ Py.dquote ++ "}".

(** The reply of [do_POST] under ['/api/']. *)
Definition unavailable_reply {platform : Platform} (w : World) : list wire :=
  [StatusLine "HTTP/1.0" 503 "Service Unavailable";
   HeaderLine "Server" version_string;
   HeaderLine "Date" (date_time_string w);
   HeaderLine "Content-type" "application/json";
   EndHeaders;
   Payload unavailable_body].

(** The reply of [send_error(404, "Not found")]. *)
Definition not_found_reply {platform : Platform} (w : World) : list wire :=
  error_reply w 404 "Not found" "Nothing matches the given URI".

(** ** An instance of the platform and two worlds, for examples *)

Definition hex_value (a : ascii) : option nat :=
  let n := nat_of_ascii a in
  if ((48 <=? n) && (n <=? 57))%nat then Some (n - 48)%nat
  else if ((65 <=? n) && (n <=? 70))%nat then Some (n - 55)%nat
  else if ((97 <=? n) && (n <=? 102))%nat then Some (n - 87)%nat
  else None.

(** Percent-decoding, octet by octet. *)
Fixpoint percent_decode (s : string) : string :=
  match s with
  | String "%" (String a (String b s' as t) as u) =>
      match hex_value a, hex_value b with
      | Some x, Some y => String (ascii_of_nat (16 * x + y)) (percent_decode s')
      | _, _ => String "%" (percent_decode u)
      end
  | String c s' => String c (percent_decode s')
  | "" => ""
  end.

Fixpoint assoc {A : Type} (k : string) (l : list (string * A)) : option A :=
  match l with
  | [] => None
  | (k', v) :: l' => if String.eqb k' k then Some v else assoc k l'
  end.

(** Stand-ins for the abstract library functions: enough of each to
    run the examples. *)
#[local] Instance example_platform : Platform := {|
  sys_version := "Python/3.11.2";
  unquote := percent_decode;
  urlsplit := fun u =>
    if Py.startswith u "//"
       && xorb (Py.contains_char "[" (Py.before "/" (Py.replace u "//" "")))
            (Py.contains_char "]" (Py.before "/" (Py.replace u "//" "")))
    then Raise ValueError
    else Return (mkSplit "" "" (Py.before "#" (Py.before "?" u)) "" "");
  urlunsplit := fun parts => url_path parts;
  guess_type := fun p =>
    if Py.endswith p ".html" then "text/html" else "application/octet-stream";
  repr := fun s => "'" ++ s ++ "'";
  getfilesystemencoding := "utf-8";
  http_date := fun t => "@" ++ Py.str t;
  parsedate_utc := fun v =>
    if String.eqb v "Fri, 01 Jan 2100 00:00:00 GMT" then Some 4102444800
    else None
|}.

(** A world from a clock reading, the files and the directories;
    [open] raises [ValueError] on a path with a NUL in it. *)
Definition site (clock : string) (files : list (string * File))
    (dirs : list string) : World :=
  let is_dir := fun p => existsb (String.eqb (Py.rstrip_char "/" p)) dirs in
  mkWorld clock is_dir
    (fun p => match assoc p files with Some _ => true | None => false end)
    (fun p => assoc p files)
    (fun p => if Py.contains_char "000" p then Some ValueError else None)
    (fun p display =>
       if is_dir p then Return (Some ("Directory listing for " ++ display))
       else Return None).

Definition example_files : list (string * File) :=
  [("Sources/GUI/Resources/index-notion.html", mkFile "<h1>Alfred</h1>" 1700000000);
   ("Sources/GUI/Resources/a/b.html", mkFile "outer" 1700000000);
   ("Sources/GUI/Resources/a/web/b.html", mkFile "inner" 1700000000)].

Definition example_dirs : list string :=
  ["Sources/GUI/Resources"; "Sources/GUI/Resources/a";
   "Sources/GUI/Resources/a/web"].

Definition noon : World :=
  site "Wed, 04 Nov 2026 12:00:00 GMT" example_files example_dirs.

Definition one_second_later : World :=
  site "Wed, 04 Nov 2026 12:00:01 GMT" example_files example_dirs.

Definition GET (p : string) : Request := mkRequest "GET" p [] "".

Definition POST (p body : string) : Request :=
  mkRequest "POST" p [("Content-Length", Py.str (Py.len body))] body.

(** ** Predicates on the methods *)

(** [m] leaves the component [f] of the state as it found it. *)
Definition frames {X A : Type} (f : Proc -> X) (m : M A) : Prop :=
  forall s, f (snd (m s)) = f s.

(** The state with another request body waiting in [self.rfile]. *)
Definition put_rfile (b : string) (s : Proc) : Proc :=
  mkProc (globals s) (with_rfile b (self s)) (calls s).

(** [m] does not look at [self.rfile]: with another body waiting it
    returns the same value and makes the same changes. *)
Definition blind {A : Type} (m : M A) : Prop :=
  forall s b, m (put_rfile b s) = (fst (m s), put_rfile b (snd (m s))).

(** [m] makes file system calls only at paths that satisfy [P]. *)
Definition calls_within {A : Type} (P : string -> Prop) (m : M A) : Prop :=
  forall s,
    Forall (fun c => P (call_path c)) (calls s) ->
    Forall (fun c => P (call_path c)) (calls (snd (m s))).

(** A plain file or directory name: not empty, not ['.'] or ['..'],
    and without a ['/']. *)
Definition simple_name (n : string) : bool :=
  negb (String.eqb n "") && negb (String.eqb n ".")
  && negb (String.eqb n "..") && negb (Py.contains_char "/" n).

(** [d/n1/n2/.../nk] *)
Fixpoint below (d : string) (names : list string) : string :=
  match names with
  | [] => d
  | n :: ns => below (d ++ "/" ++ n) ns
  end.

(** [p] names [d] or something below it: [d] followed by plain names,
    and perhaps a last ['/']. *)
Definition under_root (d p : string) : Prop :=
  exists names,
    Forall (fun n => simple_name n = true) names
    /\ (p = below d names \/ p = below d names ++ "/").

(** ** The replies of the static handler *)

(** The test of [send_head] for a copy the browser already has: an
    [If-Modified-Since] header and no [If-None-Match], a time that
    parses, and a file not changed since. *)
Definition not_modified {platform : Platform}
    (hs : list (string * string)) (f : File) : bool :=
  if header_in "If-Modified-Since" hs && negb (header_in "If-None-Match" hs)
  then match header_get "If-Modified-Since" hs with
       | Some v =>
           match parsedate_utc v with
           | Some ims => st_mtime f <=? ims
           | None => false
           end
       | None => false
       end
  else false.

(** The headers [send_head] sends for the file [f] at [p]. *)
Definition file_head {platform : Platform} (w : World) (p : string)
    (f : File) : list wire :=
  [StatusLine "HTTP/1.0" 200 "OK";
   HeaderLine "Server" version_string;
   HeaderLine "Date" (date_time_string w);
   HeaderLine "Content-type" (guess_type p);
   HeaderLine "Content-Length" (Py.str (Py.len (content f)));
   HeaderLine "Last-Modified" (http_date (st_mtime f));
   EndHeaders].

(** The reply for a file the browser already has. *)
Definition not_modified_reply {platform : Platform} (w : World)
  : list wire :=
  [StatusLine "HTTP/1.0" 304 "Not Modified";
   HeaderLine "Server" version_string;
   HeaderLine "Date" (date_time_string w);
   EndHeaders].

(** The reply for a directory asked for without its last slash;
    [parts] is [urlsplit(self.path)] when [send_head] runs. *)
Definition redirect_reply {platform : Platform} (w : World)
    (parts : SplitResult) : list wire :=
  [StatusLine "HTTP/1.0" 301 "Moved Permanently";
   HeaderLine "Server" version_string;
   HeaderLine "Date" (date_time_string w);
   HeaderLine "Location"
     (urlunsplit
        (mkSplit (scheme parts) (netloc parts) (url_path parts ++ "/")
           (query parts) (fragment parts)));
   HeaderLine "Content-Length" "0";
   EndHeaders].

(** The headers [list_directory] sends before the page. *)
Definition listing_head {platform : Platform} (w : World) (page : string)
  : list wire :=
  [StatusLine "HTTP/1.0" 200 "OK";
   HeaderLine "Server" version_string;
   HeaderLine "Date" (date_time_string w);
   HeaderLine "Content-type" ("text/html; charset=" ++ getfilesystemencoding);
   HeaderLine "Content-Length" (Py.str (Py.len page));
   EndHeaders].

(** The reply of [send_error(code, message)] for the method [cmd]: a
    [HEAD] request gets the headers without the page. *)
Definition error_reply_for {platform : Platform} (cmd : string) (w : World)
    (code : Z) (message explain : string) : list wire :=
  let body :=
    Py.encode (error_message_format code (Html.escape message)
                 (Html.escape explain)) in
  [StatusLine "HTTP/1.0" code message;
   HeaderLine "Server" version_string;
   HeaderLine "Date" (date_time_string w);
   HeaderLine "Connection" "close";
   HeaderLine "Content-Type" "text/html;charset=utf-8";
   HeaderLine "Content-Length" (Py.str (Py.len body));
   EndHeaders]
  ++ (if String.eqb cmd "HEAD" then [] else [Payload body]).

(** The handler of a request as [send_head] finds it: [url] in
    [self.path], nothing buffered or written, and the file system
    calls [cs] made. *)
Abbreviation at_send_head g cmd url hs b d out cs :=
  (mkProc g (mkHandler cmd url hs b d true [] out) cs).

(** [self.path] after the rewriting of [do_GET], and the file system
    path the static handler resolves it to. *)
Definition rewritten (r : Request) : string :=
  Py.replace (r_path r) "/web/" "/".

Definition web_target {platform : Platform} (r : Request) : string :=
  translate_path (DIRECTORY module_globals) (rewritten r).


(** The status codes this server sends. *)
Definition status_codes : list Z := [200; 301; 304; 404; 501; 503].

(** How a method ends, with [out] the bytes it has written: it has
    returned after a reply whose status is one of [codes], or it has
    raised before anything was written. *)
Definition ends_with {A : Type} (codes : list Z) (res : result A)
    (out : list wire) : Prop :=
  match res with
  | Return _ => exists c, status_of out = Some c /\ In c codes
  | Raise _ => out = []
  end.





(** * Properties *)

(** ** Strings *)


Lemma startswith_app (p r : string) : Py.startswith (p ++ r) p = true.
Proof.
  induction p as [|a p IH]; simpl; [reflexivity|].
  rewrite Ascii.eqb_refl. exact IH.
Qed.

Lemma startswith_split (s p : string) :
  Py.startswith s p = true -> exists r, s = p ++ r.
Proof.
  revert s. induction p as [|a p IH]; intros s H.
  - exists s. reflexivity.
  - destruct s as [|b s]; simpl in H; [discriminate|].
    apply andb_true_iff in H. destruct H as [Hab Hs].
    apply Ascii.eqb_eq in Hab. subst b.
    destruct (IH s Hs) as [r ->]. exists r. reflexivity.
Qed.

(** The rewriting of [do_GET] on a path under ['/web/']: the leading
    segment goes, and so does every later ['/web/'] in the rest. *)
Lemma replace_web_prefix (rest : string) :
  Py.replace ("/web/" ++ rest) "/web/" "/" = "/" ++ Py.replace rest "/web/" "/".
Proof. reflexivity. Qed.

(** ** Replies computed *)

(** Unfolds the methods of the handler down to functions on the state
    and evaluates them. *)
Ltac run :=
  unfold send_response, send_response_only, send_header, buffer_append,
    end_headers, flush_headers, wfile_write, copyfile, os_path_isdir,
    os_path_isfile, open, log_call, modify_self, attr, bind, ret;
  simpl.

#[local] Arguments error_message_format : simpl never.
#[local] Arguments Py.encode : simpl never.
#[local] Arguments Py.str : simpl never.
#[local] Arguments Py.replace : simpl never.
#[local] Arguments Py.startswith : simpl never.
#[local] Arguments translate_path : simpl never.
#[local] Arguments PosixPath.join : simpl never.

Section Replies.

Context {platform : Platform}.
Variable w : World.

Lemma error_body_not_empty (code : Z) (message explain : string) :
  String.eqb (Py.encode (error_message_format code message explain)) ""
  = false.
Proof. reflexivity. Qed.

(** [send_error] on a handler with nothing buffered, for a request
    that is not [HEAD]. *)
Lemma send_error_run (code : Z) (message : string) (g : Globals)
    (cmd p : string) (hs : list (string * string)) (b d : string)
    (out : list wire) (cs : list fs_call) (short long : string) :
  responses code = Some (short, long) ->
  (code >=? 200)
    && negb ((code =? 204) || (code =? 205) || (code =? 304)) = true ->
  String.eqb cmd "HEAD" = false ->
  send_error w code (Some message) None
    (mkProc g (mkHandler cmd p hs b d true [] out) cs)
  = (Return tt, mkProc g
           (mkHandler cmd p hs b d true []
              (out ++ error_reply w code message long)) cs).
Proof.
  intros Hr Hc Hcmd. unfold send_error. rewrite Hr, Hc.
  unfold error_reply. run. rewrite Hcmd. simpl.
  rewrite <- app_assoc. reflexivity.
Qed.

Lemma do_GET_elsewhere (g : Globals) (p : string)
    (hs : list (string * string)) (b d : string) :
  Py.startswith p "/web/" = false ->
  do_GET w (mkProc g (mkHandler "GET" p hs b d true [] []) [])
  = (Return tt, mkProc g (mkHandler "GET" p hs b d true [] (not_found_reply w)) []).
Proof.
  intro H. unfold do_GET, bind at 1, attr. simpl. rewrite H.
  apply (send_error_run 404 "Not found" g "GET" p hs b d [] []
           (short := "Not Found")); reflexivity.
Qed.

Lemma do_POST_run (g : Globals) (p : string)
    (hs : list (string * string)) (b d : string) :
  do_POST w (mkProc g (mkHandler "POST" p hs b d true [] []) [])
  = (Return tt, mkProc g
           (mkHandler "POST" p hs b d true []
              (if Py.startswith p "/api/" then unavailable_reply w
               else not_found_reply w)) []).
Proof.
  unfold do_POST, bind at 1, attr. simpl.
  destruct (Py.startswith p "/api/").
  - reflexivity.
  - apply (send_error_run 404 "Not found" g "POST" p hs b d [] []
             (short := "Not Found")); reflexivity.
Qed.

Lemma method_do (cmd : string) :
  method w ("do_" ++ cmd) =
  if String.eqb cmd "GET" then Some (do_GET w)
  else if String.eqb cmd "POST" then Some (do_POST w)
  else if String.eqb cmd "HEAD" then Some (do_HEAD w)
  else None.
Proof. reflexivity. Qed.

Lemma handle_GET (s : Proc) :
  command (self s) = "GET" -> handle_one_request w s = do_GET w s.
Proof.
  intro H. unfold handle_one_request, bind, attr.
  rewrite method_do, H. reflexivity.
Qed.

Lemma handle_POST (s : Proc) :
  command (self s) = "POST" -> handle_one_request w s = do_POST w s.
Proof.
  intro H. unfold handle_one_request, bind, attr.
  rewrite method_do, H. reflexivity.
Qed.

Lemma handle_HEAD (s : Proc) :
  command (self s) = "HEAD" -> handle_one_request w s = do_HEAD w s.
Proof.
  intro H. unfold handle_one_request, bind, attr.
  rewrite method_do, H. reflexivity.
Qed.

Lemma handle_other (s : Proc) :
  String.eqb (command (self s)) "GET" = false ->
  String.eqb (command (self s)) "POST" = false ->
  String.eqb (command (self s)) "HEAD" = false ->
  handle_one_request w s
  = send_error w 501
      (Some ("Unsupported method (" ++ repr (command (self s)) ++ ")"))
      None s.
Proof.
  intros HG HP HH. unfold handle_one_request, bind, attr.
  rewrite method_do, HG, HP, HH. reflexivity.
Qed.

Lemma handle_unsupported (g : Globals) (cmd p : string)
    (hs : list (string * string)) (b d : string) :
  String.eqb cmd "GET" = false -> String.eqb cmd "POST" = false ->
  String.eqb cmd "HEAD" = false ->
  handle_one_request w (mkProc g (mkHandler cmd p hs b d true [] []) [])
  = (Return tt, mkProc g
           (mkHandler cmd p hs b d true []
              (error_reply w 501 ("Unsupported method (" ++ repr cmd ++ ")")
                 "Server does not support this operation")) []).
Proof.
  intros HG HP HH. rewrite handle_other by assumption.
  apply (send_error_run 501 _ g cmd p hs b d [] []
           (short := "Not Implemented")); [reflexivity | reflexivity | exact HH].
Qed.

End Replies.

(** ** What the methods leave alone *)

Section Frames.

Context {X : Type} (f : Proc -> X).

Lemma frames_ret {A : Type} (a : A) : frames f (ret a).
Proof. intro s. reflexivity. Qed.

Lemma frames_bind {A B : Type} (m : M A) (k : A -> M B) :
  frames f m -> (forall a, frames f (k a)) -> frames f (bind m k).
Proof.
  intros Hm Hk s. unfold bind. specialize (Hm s).
  destruct (m s) as [[a|e] s']; simpl in Hm; [rewrite Hk|]; exact Hm.
Qed.

Lemma frames_raise {A : Type} (e : exception) : frames f (raise (A := A) e).
Proof. intro s. reflexivity. Qed.

Lemma frames_call {A : Type} (r : result A) : frames f (call r).
Proof. intro s. destruct r; reflexivity. Qed.

Lemma frames_attr {A : Type} (name : Handler -> A) : frames f (attr name).
Proof. intro s. reflexivity. Qed.

End Frames.

Lemma globals_modify_self (h : Handler -> Handler) :
  frames globals (modify_self h).
Proof. intro s. reflexivity. Qed.

Lemma globals_log_call (c : fs_call) : frames globals (log_call c).
Proof. intro s. reflexivity. Qed.

Lemma calls_modify_self (h : Handler -> Handler) :
  frames calls (modify_self h).
Proof. intro s. reflexivity. Qed.

Lemma directory_modify_self (h : Handler -> Handler) :
  (forall x, directory (h x) = directory x) ->
  frames (fun s => directory (self s)) (modify_self h).
Proof. intros H s. simpl. apply H. Qed.

Lemma blind_ret {A : Type} (a : A) : blind (ret a).
Proof. intros s b. reflexivity. Qed.

Lemma blind_bind {A B : Type} (m : M A) (k : A -> M B) :
  blind m -> (forall a, blind (k a)) -> blind (bind m k).
Proof.
  intros Hm Hk s b. unfold bind. rewrite Hm.
  destruct (m s) as [[a|e] s']; simpl; [apply Hk | reflexivity].
Qed.

Lemma blind_raise {A : Type} (e : exception) : blind (raise (A := A) e).
Proof. intros s b. reflexivity. Qed.

Lemma blind_call {A : Type} (r : result A) : blind (call r).
Proof. intros s b. destruct r; reflexivity. Qed.

Lemma blind_attr {A : Type} (name : Handler -> A) :
  (forall h b, name (with_rfile b h) = name h) -> blind (attr name).
Proof. intros H s b. unfold attr. simpl. now rewrite H. Qed.

Lemma blind_modify_self (h : Handler -> Handler) :
  (forall x b, h (with_rfile b x) = with_rfile b (h x)) ->
  blind (modify_self h).
Proof.
  intros H s b. unfold modify_self, put_rfile. simpl. now rewrite H.
Qed.

Lemma blind_log_call (c : fs_call) : blind (log_call c).
Proof. intros s b. reflexivity. Qed.

(** One step in the proof that a method has one of the properties
    above: through [bind], through a branch, or by a primitive. *)
Ltac frame_step :=
  lazymatch goal with
  | |- frames _ (ret _) => apply frames_ret
  | |- frames _ (raise _) => apply frames_raise
  | |- frames _ (call _) => apply frames_call
  | |- blind (raise _) => apply blind_raise
  | |- blind (call _) => apply blind_call
  | |- frames _ (attr _) => apply frames_attr
  | |- frames globals (modify_self _) => apply globals_modify_self
  | |- frames globals (log_call _) => apply globals_log_call
  | |- frames calls (modify_self _) => apply calls_modify_self
  | |- frames _ (bind _ _) => apply frames_bind; [|intro]
  | |- blind (ret _) => apply blind_ret
  | |- blind (attr _) => apply blind_attr; reflexivity
  | |- blind (modify_self _) => apply blind_modify_self; reflexivity
  | |- blind (log_call _) => apply blind_log_call
  | |- blind (bind _ _) => apply blind_bind; [|intro]
  | |- frames _ (if ?b then _ else _) => destruct b
  | |- blind (if ?b then _ else _) => destruct b
  | |- frames _ (match ?x with _ => _ end) => destruct x
  | |- blind (match ?x with _ => _ end) => destruct x
  | |- _ => solve [auto with methods]
  end.

Ltac frame := repeat frame_step.

Create HintDb methods discriminated.

Section LibraryFrames.

Context {platform : Platform}.
Variable w : World.

Lemma send_header_globals k v : frames globals (send_header k v).
Proof. unfold send_header, buffer_append. frame. Qed.

Lemma send_header_calls k v : frames calls (send_header k v).
Proof. unfold send_header, buffer_append. frame. Qed.

Lemma send_header_blind k v : blind (send_header k v).
Proof. unfold send_header, buffer_append. frame. Qed.

Hint Resolve send_header_globals send_header_calls send_header_blind
  : methods.

Lemma send_response_globals c m : frames globals (send_response w c m).
Proof. unfold send_response, send_response_only, buffer_append. frame. Qed.

Lemma send_response_calls c m : frames calls (send_response w c m).
Proof. unfold send_response, send_response_only, buffer_append. frame. Qed.

Lemma send_response_blind c m : blind (send_response w c m).
Proof. unfold send_response, send_response_only, buffer_append. frame. Qed.

Lemma end_headers_globals : frames globals end_headers.
Proof.
  unfold end_headers, flush_headers, buffer_append, wfile_write. frame.
Qed.

Lemma end_headers_calls : frames calls end_headers.
Proof.
  unfold end_headers, flush_headers, buffer_append, wfile_write. frame.
Qed.

Lemma end_headers_blind : blind end_headers.
Proof.
  unfold end_headers, flush_headers, buffer_append, wfile_write. frame.
Qed.

Hint Resolve send_response_globals send_response_calls send_response_blind
  end_headers_globals end_headers_calls end_headers_blind : methods.

Lemma send_error_globals c m e : frames globals (send_error w c m e).
Proof.
  unfold send_error, wfile_write.
  destruct (responses c) as [[? ?]|]; frame.
Qed.

Lemma send_error_calls c m e : frames calls (send_error w c m e).
Proof.
  unfold send_error, wfile_write.
  destruct (responses c) as [[? ?]|]; frame.
Qed.

Lemma send_error_blind c m e : blind (send_error w c m e).
Proof.
  unfold send_error, wfile_write.
  destruct (responses c) as [[? ?]|]; frame.
Qed.

Hint Resolve send_error_globals send_error_calls send_error_blind
  : methods.

Lemma send_head_globals : frames globals (send_head w).
Proof.
  unfold send_head, send_head_file, list_directory, os_path_isdir,
    os_path_isfile, open.
  frame.
Qed.

Lemma send_head_blind : blind (send_head w).
Proof.
  unfold send_head, send_head_file, list_directory, os_path_isdir,
    os_path_isfile, open.
  frame.
Qed.

Hint Resolve send_head_globals send_head_blind : methods.

Lemma handle_one_request_globals : frames globals (handle_one_request w).
Proof.
  unfold handle_one_request. apply frames_bind; [frame|]. intro cmd.
  rewrite method_do.
  destruct (String.eqb cmd "GET");
    [|destruct (String.eqb cmd "POST"); [|destruct (String.eqb cmd "HEAD")]];
    unfold do_GET, do_POST, do_HEAD, Simple_do_GET, copyfile, wfile_write;
    frame.
Qed.

Lemma handle_one_request_blind : blind (handle_one_request w).
Proof.
  unfold handle_one_request. apply blind_bind; [frame|]. intro cmd.
  rewrite method_do.
  destruct (String.eqb cmd "GET");
    [|destruct (String.eqb cmd "POST"); [|destruct (String.eqb cmd "HEAD")]];
    unfold do_GET, do_POST, do_HEAD, Simple_do_GET, copyfile, wfile_write;
    frame.
Qed.

End LibraryFrames.

(** ** Requests outside the two prefixes, and the stub under ['/api/'] *)

Section Routes.

Context {platform : Platform}.
Variable w : World.

Lemma exchange_GET_elsewhere (r : Request) :
  r_command r = "GET" -> Py.startswith (r_path r) "/web/" = false ->
  exchange w r = mkExchange (not_found_reply w) (r_body r) [] true.
Proof.
  destruct r as [cmd p hs b]. simpl. intros -> H.
  unfold exchange, AlfredHTTPRequestHandler, new_handler. simpl.
  rewrite handle_GET by reflexivity.
  rewrite do_GET_elsewhere by exact H. reflexivity.
Qed.

Lemma exchange_POST (r : Request) :
  r_command r = "POST" ->
  exchange w r
  = mkExchange
      (if Py.startswith (r_path r) "/api/" then unavailable_reply w
       else not_found_reply w)
      (r_body r) [] true.
Proof.
  destruct r as [cmd p hs b]. simpl. intros ->.
  unfold exchange, AlfredHTTPRequestHandler, new_handler. simpl.
  rewrite handle_POST by reflexivity.
  rewrite do_POST_run. reflexivity.
Qed.

Lemma exchange_unsupported (r : Request) :
  r_command r <> "GET" -> r_command r <> "POST" -> r_command r <> "HEAD" ->
  exchange w r
  = mkExchange
      (error_reply w 501
         ("Unsupported method (" ++ repr (r_command r) ++ ")")
         "Server does not support this operation")
      (r_body r) [] true.
Proof.
  destruct r as [cmd p hs b]. simpl. intros HG HP HH.
  apply String.eqb_neq in HG, HP, HH.
  unfold exchange, AlfredHTTPRequestHandler, new_handler. simpl.
  rewrite handle_unsupported by assumption. reflexivity.
Qed.

End Routes.

(** C2. Every POST request whose path starts with ['/api/'] gets the
    same reply: status 503, the header [Content-type: application/json]
    and the body
    [{"error": "Swift backend not running. Use CLI instead: swift run alfred"}],
    whatever the rest of the path and the request body are. *)
Theorem post_api_unavailable {platform : Platform} (w : World) (r : Request) :
  r_command r = "POST" -> Py.startswith (r_path r) "/api/" = true ->
  respond w r = unavailable_reply w
  /\ status_of (respond w r) = Some 503
  /\ header_of "Content-type" (respond w r) = Some "application/json"
  /\ body_of (respond w r) = unavailable_body.
Proof.
  intros Hc Hp. unfold respond. rewrite exchange_POST by exact Hc.
  rewrite Hp. simpl. repeat split; reflexivity.
Qed.

Lemma post_api_unavailable_witness :
  (r_command (POST "/api/anything?x=1" "hello") = "POST"
   /\ Py.startswith (r_path (POST "/api/anything?x=1" "hello")) "/api/" = true)
  /\ body_of (respond noon (POST "/api/anything?x=1" "hello"))
     = unavailable_body.
Proof.
  split; [split; reflexivity|].
  apply (post_api_unavailable noon (POST "/api/anything?x=1" "hello"));
    reflexivity.
Defined.

(** The page [send_error(404, "Not found")] sends. *)
Lemma not_found_reply_read {platform : Platform} (w : World) :
  status_of (not_found_reply w) = Some 404
  /\ reason_of (not_found_reply w) = Some "Not found"
  /\ header_of "Content-Type" (not_found_reply w)
     = Some "text/html;charset=utf-8"
  /\ body_of (not_found_reply w)
     = Py.encode
         (error_message_format 404 "Not found" "Nothing matches the given URI").
Proof.
  repeat split; reflexivity.
Qed.

(** C4, as the code has it. Every GET request whose path does not
    start with ['/web/'] gets status 404 with the reason phrase
    ["Not found"]; the body is the HTML error page of [send_error],
    sent as [text/html;charset=utf-8], with ["Not found"] as its
    message. *)
Theorem get_elsewhere_not_found {platform : Platform} (w : World)
    (r : Request) :
  r_command r = "GET" -> Py.startswith (r_path r) "/web/" = false ->
  respond w r = not_found_reply w
  /\ status_of (respond w r) = Some 404
  /\ reason_of (respond w r) = Some "Not found"
  /\ header_of "Content-Type" (respond w r) = Some "text/html;charset=utf-8"
  /\ body_of (respond w r)
     = Py.encode
         (error_message_format 404 "Not found" "Nothing matches the given URI").
Proof.
  intros Hc Hp. unfold respond.
  rewrite exchange_GET_elsewhere by assumption. simpl written.
  split; [reflexivity | apply not_found_reply_read].
Qed.

Lemma get_elsewhere_not_found_witness :
  (r_command (GET "/favicon.ico") = "GET"
   /\ Py.startswith (r_path (GET "/favicon.ico")) "/web/" = false)
  /\ status_of (respond noon (GET "/favicon.ico")) = Some 404.
Proof.
  split; [split; reflexivity|].
  apply (get_elsewhere_not_found noon (GET "/favicon.ico")); reflexivity.
Defined.

(** C4, as stated, fails: the body of the 404 reply to
    [GET /favicon.ico] is not the text ["Not found"], and the reply is
    declared as HTML. *)
Lemma get_elsewhere_body_is_a_page :
  status_of (respond noon (GET "/favicon.ico")) = Some 404
  /\ body_of (respond noon (GET "/favicon.ico")) <> "Not found"
  /\ header_of "Content-Type" (respond noon (GET "/favicon.ico"))
     = Some "text/html;charset=utf-8".
Proof.
  split; [reflexivity|]. split; [|reflexivity].
  vm_compute. discriminate.
Qed.

(** C5, as the code has it. Every POST request whose path does not
    start with ['/api/'] gets status 404 with the reason phrase
    ["Not found"]; the body is the HTML error page of [send_error],
    sent as [text/html;charset=utf-8], with ["Not found"] as its
    message. *)
Theorem post_elsewhere_not_found {platform : Platform} (w : World)
    (r : Request) :
  r_command r = "POST" -> Py.startswith (r_path r) "/api/" = false ->
  respond w r = not_found_reply w
  /\ status_of (respond w r) = Some 404
  /\ reason_of (respond w r) = Some "Not found"
  /\ header_of "Content-Type" (respond w r) = Some "text/html;charset=utf-8"
  /\ body_of (respond w r)
     = Py.encode
         (error_message_format 404 "Not found" "Nothing matches the given URI").
Proof.
  intros Hc Hp. unfold respond. rewrite exchange_POST by exact Hc.
  rewrite Hp. simpl written.
  split; [reflexivity | apply not_found_reply_read].
Qed.

Lemma post_elsewhere_not_found_witness :
  (r_command (POST "/other" "") = "POST"
   /\ Py.startswith (r_path (POST "/other" "")) "/api/" = false)
  /\ status_of (respond noon (POST "/other" "")) = Some 404.
Proof.
  split; [split; reflexivity|].
  apply (post_elsewhere_not_found noon (POST "/other" "")); reflexivity.
Defined.

(** C5, as stated, fails: the body of the 404 reply to [POST /other]
    is not the text ["Not found"], and the reply is declared as HTML. *)
Lemma post_elsewhere_body_is_a_page :
  status_of (respond noon (POST "/other" "")) = Some 404
  /\ body_of (respond noon (POST "/other" "")) <> "Not found"
  /\ header_of "Content-Type" (respond noon (POST "/other" ""))
     = Some "text/html;charset=utf-8".
Proof.
  split; [reflexivity|]. split; [|reflexivity].
  vm_compute. discriminate.
Qed.

(** C10. A GET request for ['/web'], without the slash, is answered
    with the 404 reply of the handler itself: no file system call is
    made for it. *)
Theorem get_web_without_slash {platform : Platform} (w : World)
    (hs : list (string * string)) (b : string) :
  status_of (respond w (mkRequest "GET" "/web" hs b)) = Some 404
  /\ respond w (mkRequest "GET" "/web" hs b) = not_found_reply w
  /\ fs_calls (exchange w (mkRequest "GET" "/web" hs b)) = [].
Proof.
  unfold respond.
  rewrite exchange_GET_elsewhere by reflexivity.
  repeat split; reflexivity.
Qed.

(** C3, as the code has it. A GET request outside ['/web/'] and a POST
    request outside ['/api/'] get the 404 ["Not found"] reply. A request
    whose method is none of GET, POST and HEAD gets a 501 reply,
    ["Unsupported method"], and a HEAD request is handed to the
    inherited [do_HEAD], whatever its path. *)
Theorem unmatched_requests {platform : Platform} (w : World) (r : Request) :
  (r_command r = "GET" -> Py.startswith (r_path r) "/web/" = false ->
   respond w r = not_found_reply w)
  /\ (r_command r = "POST" -> Py.startswith (r_path r) "/api/" = false ->
      respond w r = not_found_reply w)
  /\ (r_command r <> "GET" -> r_command r <> "POST" ->
      r_command r <> "HEAD" ->
      status_of (respond w r) = Some 501
      /\ respond w r
         = error_reply w 501
             ("Unsupported method (" ++ repr (r_command r) ++ ")")
             "Server does not support this operation")
  /\ (r_command r = "HEAD" ->
      respond w r
      = wfile (self (snd (do_HEAD w (new_handler r module_globals))))).
Proof.
  unfold respond. repeat split.
  - intros Hc Hp. now rewrite exchange_GET_elsewhere.
  - intros Hc Hp. rewrite exchange_POST by exact Hc. now rewrite Hp.
  - now rewrite exchange_unsupported.
  - now rewrite exchange_unsupported.
  - intro Hc. unfold exchange, AlfredHTTPRequestHandler.
    rewrite handle_HEAD by exact Hc.
    destruct (do_HEAD w (new_handler r module_globals)). reflexivity.
Qed.

Lemma unmatched_requests_witness :
  (r_command (mkRequest "PUT" "/web/x" [] "") <> "GET"
   /\ r_command (mkRequest "PUT" "/web/x" [] "") <> "POST"
   /\ r_command (mkRequest "PUT" "/web/x" [] "") <> "HEAD")
  /\ status_of (respond noon (mkRequest "PUT" "/web/x" [] "")) = Some 501.
Proof.
  split; [repeat split; discriminate|].
  apply (unmatched_requests noon (mkRequest "PUT" "/web/x" [] ""));
    discriminate.
Defined.

(** C3, as stated, fails: [PUT /web/x] is neither a GET under ['/web/']
    nor a POST under ['/api/'] and is answered with 501, and
    [HEAD /index-notion.html] is answered with 200. *)
Lemma other_methods_are_not_not_found :
  (status_of (respond noon (mkRequest "PUT" "/web/x" [] "")) = Some 501
   /\ status_of (respond noon (mkRequest "PUT" "/web/x" [] "")) <> Some 404)
  /\ (status_of (respond noon (mkRequest "HEAD" "/index-notion.html" [] ""))
      = Some 200
      /\ status_of (respond noon (mkRequest "HEAD" "/index-notion.html" [] ""))
         <> Some 404).
Proof.
  repeat split; try reflexivity; vm_compute; discriminate.
Qed.

(** C6. A POST request leaves its body unread, and two POST requests
    for the same path get the same response whatever their bodies (and
    their headers) are. *)
Theorem post_ignores_body {platform : Platform} (w : World)
    (r1 r2 : Request) :
  r_command r1 = "POST" -> r_command r2 = "POST" -> r_path r1 = r_path r2 ->
  respond w r1 = respond w r2
  /\ unread (exchange w r1) = r_body r1
  /\ unread (exchange w r2) = r_body r2.
Proof.
  intros H1 H2 Hp. unfold respond.
  rewrite !exchange_POST by assumption. rewrite Hp.
  repeat split; reflexivity.
Qed.

Lemma post_ignores_body_witness :
  (r_command (POST "/api/chat" "hello") = "POST"
   /\ r_command (POST "/api/chat" "a longer body") = "POST"
   /\ r_path (POST "/api/chat" "hello")
      = r_path (POST "/api/chat" "a longer body"))
  /\ respond noon (POST "/api/chat" "hello")
     = respond noon (POST "/api/chat" "a longer body")
  /\ unread (exchange noon (POST "/api/chat" "hello")) = "hello"
  /\ unread (exchange noon (POST "/api/chat" "a longer body"))
     = "a longer body".
Proof.
  split; [repeat split; reflexivity|].
  apply (post_ignores_body noon (POST "/api/chat" "hello")
           (POST "/api/chat" "a longer body")); reflexivity.
Defined.

(** ** The configuration and the independence of requests *)

Section Server.

Context {platform : Platform}.

Lemma handler_keeps_globals (w : World) (r : Request) (g : Globals) :
  fst (AlfredHTTPRequestHandler w r g) = g.
Proof.
  unfold AlfredHTTPRequestHandler.
  pose proof (handle_one_request_globals w (new_handler r g)) as H.
  destruct (handle_one_request w (new_handler r g)) as [u s].
  exact H.
Qed.

Lemma serve_forever_globals (g : Globals)
    (connections : list (World * Request)) :
  fst (serve_forever g connections) = g.
Proof.
  revert g. induction connections as [|[w r] rest IH]; intro g.
  - reflexivity.
  - simpl. pose proof (handler_keeps_globals w r g) as H.
    destruct (AlfredHTTPRequestHandler w r g) as [g' e]. simpl in H.
    subst g'. specialize (IH g).
    destruct (serve_forever g rest) as [g'' es]. exact IH.
Qed.

Lemma serve_forever_exchanges (g : Globals)
    (connections : list (World * Request)) :
  snd (serve_forever g connections)
  = map (fun c => snd (AlfredHTTPRequestHandler (fst c) (snd c) g))
      connections.
Proof.
  revert g. induction connections as [|[w r] rest IH]; intro g.
  - reflexivity.
  - simpl. pose proof (handler_keeps_globals w r g) as H.
    destruct (AlfredHTTPRequestHandler w r g) as [g' e]. simpl in H.
    subst g'. specialize (IH g).
    destruct (serve_forever g rest) as [g'' es]. simpl in *.
    now rewrite IH.
Qed.

(** Requests that differ in their bodies only get the same
    response. *)
Lemma body_never_read (w : World) (r r' : Request) (g : Globals) :
  r_command r = r_command r' -> r_path r = r_path r' ->
  r_headers r = r_headers r' ->
  written (snd (AlfredHTTPRequestHandler w r g))
  = written (snd (AlfredHTTPRequestHandler w r' g)).
Proof.
  destruct r as [c p hs b], r' as [c' p' hs' b']. simpl.
  intros <- <- <-. unfold AlfredHTTPRequestHandler.
  change (new_handler (mkRequest c p hs b) g)
    with (put_rfile b (new_handler (mkRequest c p hs b') g)).
  rewrite handle_one_request_blind.
  destruct (handle_one_request w (new_handler (mkRequest c p hs b') g)).
  reflexivity.
Qed.

End Server.

(** C8. The server is a stream socket bound to the empty host, which
    is every interface, at port 8080, and however many connections it
    serves, [PORT] and [DIRECTORY] are afterwards what the module set
    them to. *)
Theorem configuration_fixed {platform : Platform}
    (connections : list (World * Request)) :
  httpd module_globals = mkServer ("", 8080) SOCK_STREAM
  /\ fst (serve_forever module_globals connections)
     = mkGlobals 8080 "Sources/GUI/Resources".
Proof.
  split; [reflexivity | apply serve_forever_globals].
Qed.

(** C9, as the code has it. Requests are handled independently: each
    connection of a run of the server gets what its request would get
    alone on a freshly started server, whatever was served before and
    whatever errors that produced; and the response is determined by
    the method, the path and the headers of the request together with
    the file system and the clock when it is served. *)
Theorem requests_are_independent {platform : Platform}
    (connections : list (World * Request)) (w : World) (r r' : Request) :
  r_command r = r_command r' -> r_path r = r_path r' ->
  r_headers r = r_headers r' ->
  snd (serve_forever module_globals connections)
  = map (fun c => exchange (fst c) (snd c)) connections
  /\ respond w r = respond w r'.
Proof.
  intros Hc Hp Hh. split.
  - unfold exchange. exact (serve_forever_exchanges module_globals connections).
  - unfold respond, exchange. now apply body_never_read.
Qed.

Lemma requests_are_independent_witness :
  (r_command (mkRequest "POST" "/nowhere" [] "one")
   = r_command (mkRequest "POST" "/nowhere" [] "another")
   /\ r_path (mkRequest "POST" "/nowhere" [] "one")
      = r_path (mkRequest "POST" "/nowhere" [] "another")
   /\ r_headers (mkRequest "POST" "/nowhere" [] "one")
      = r_headers (mkRequest "POST" "/nowhere" [] "another"))
  /\ snd (serve_forever module_globals
            [(noon, POST "/nowhere" "one");
             (one_second_later, GET "/web/index-notion.html")])
     = map (fun c => exchange (fst c) (snd c))
         [(noon, POST "/nowhere" "one");
          (one_second_later, GET "/web/index-notion.html")]
  /\ respond noon (mkRequest "POST" "/nowhere" [] "one")
     = respond noon (mkRequest "POST" "/nowhere" [] "another").
Proof.
  split; [repeat split; reflexivity|].
  exact (requests_are_independent
           [(noon, POST "/nowhere" "one");
            (one_second_later, GET "/web/index-notion.html")]
           noon (mkRequest "POST" "/nowhere" [] "one")
           (mkRequest "POST" "/nowhere" [] "another")
           eq_refl eq_refl eq_refl).
Defined.

(** C9, as stated, fails: with the method, the path and the file
    system the same, the response changes with the clock (the [Date]
    header) and with the headers of the request (a later
    [If-Modified-Since] turns 200 into 304). *)
Lemma response_depends_on_clock_and_headers :
  (open_rb noon = open_rb one_second_later
   /\ isdir noon = isdir one_second_later
   /\ respond noon (POST "/api/chat" "") 
      <> respond one_second_later (POST "/api/chat" ""))
  /\ (status_of (respond noon (GET "/web/index-notion.html")) = Some 200
      /\ status_of
           (respond noon
              (mkRequest "GET" "/web/index-notion.html"
                 [("If-Modified-Since", "Fri, 01 Jan 2100 00:00:00 GMT")] ""))
         = Some 304).
Proof.
  repeat split; try reflexivity.
  vm_compute. discriminate.
Qed.

(** ** Paths stay under the root *)

Lemma append_assoc (a b c : string) : (a ++ b) ++ c = a ++ b ++ c.
Proof. induction a as [|x a IH]; simpl; [reflexivity | now rewrite IH]. Qed.

Lemma append_not_empty (a b : string) : b <> "" -> a ++ b <> "".
Proof. destruct a; simpl; [auto | discriminate]. Qed.

Lemma endswith_app_self (a suf : string) : Py.endswith (a ++ suf) suf = true.
Proof.
  induction a as [|x a IH]; simpl.
  - destruct suf; simpl; [reflexivity|].
    rewrite Ascii.eqb_refl, String.eqb_refl. reflexivity.
  - rewrite IH. apply orb_true_r.
Qed.

Lemma endswith_slash_app (a n : string) :
  n <> "" -> Py.endswith (a ++ n) "/" = Py.endswith n "/".
Proof.
  intro Hn. induction a as [|x a IH]; [reflexivity|].
  simpl. rewrite IH.
  destruct (Ascii.eqb x "/"); [|reflexivity].
  assert (H : String.eqb (a ++ n) "" = false).
  { apply String.eqb_neq. now apply append_not_empty. }
  rewrite H. reflexivity.
Qed.

Lemma endswith_no_slash (n : string) :
  Py.contains_char "/" n = false -> Py.endswith n "/" = false.
Proof.
  induction n as [|x n IH]; [reflexivity|]. simpl.
  intro H. apply orb_false_iff in H. destruct H as [Hx Hn].
  rewrite Hx, (IH Hn). reflexivity.
Qed.

Lemma startswith_no_slash (n : string) :
  Py.contains_char "/" n = false -> Py.startswith n "/" = false.
Proof.
  destruct n as [|x n]; [reflexivity|]. simpl.
  intro H. apply orb_false_iff in H. destruct H as [Hx _].
  unfold Py.startswith. rewrite Ascii.eqb_sym, Hx. reflexivity.
Qed.

Lemma split_no_sep (c : ascii) (s : string) :
  Forall (fun n => Py.contains_char c n = false) (Py.split c s).
Proof.
  induction s as [|a s IH]; simpl.
  - constructor; [reflexivity | constructor].
  - destruct (Ascii.eqb a c) eqn:E.
    + constructor; [reflexivity | exact IH].
    + destruct (Py.split c s) as [|n ns].
      * constructor; [|constructor]. simpl. now rewrite E.
      * inversion IH as [|? ? Hn Hns]; subst.
        constructor; [|exact Hns]. simpl. now rewrite E, Hn.
Qed.

Lemma simple_name_parts (n : string) :
  simple_name n = true ->
  n <> "" /\ Py.contains_char "/" n = false.
Proof.
  unfold simple_name. intro H.
  repeat (apply andb_true_iff in H; destruct H as [H ?]).
  split.
  - apply String.eqb_neq. now apply negb_true_iff.
  - now apply negb_true_iff.
Qed.

Lemma below_snoc (d : string) (names : list string) (n : string) :
  below d (names ++ [n]) = below d names ++ "/" ++ n.
Proof.
  revert d. induction names as [|m names IH]; intro d; simpl.
  - reflexivity.
  - apply IH.
Qed.

Section UnderRoot.

Variable d : string.
Hypothesis d_not_empty : d <> "".
Hypothesis d_no_slash : Py.endswith d "/" = false.

(** [d/n1/.../nk] is not empty and does not end with a slash. *)
Lemma below_clean (names : list string) :
  Forall (fun n => simple_name n = true) names ->
  below d names <> "" /\ Py.endswith (below d names) "/" = false.
Proof.
  induction names as [|n names IH] using rev_ind; intro H.
  - simpl. auto.
  - apply Forall_app in H. destruct H as [_ Hn].
    inversion Hn as [|? ? Hs _]; subst.
    apply simple_name_parts in Hs. destruct Hs as [Hne Hns].
    rewrite below_snoc. split.
    + apply append_not_empty. discriminate.
    + rewrite <- append_assoc, endswith_slash_app by exact Hne.
      now apply endswith_no_slash.
Qed.

Lemma join_below (names : list string) (n : string) :
  Forall (fun n => simple_name n = true) names ->
  simple_name n = true ->
  PosixPath.join (below d names) n = below d (names ++ [n]).
Proof.
  intros Hnames Hn. destruct (below_clean Hnames) as [Hne Hsl].
  destruct (simple_name_parts _ Hn) as [_ Hns].
  unfold PosixPath.join.
  rewrite (startswith_no_slash _ Hns), Hsl.
  apply String.eqb_neq in Hne. rewrite Hne. simpl.
  now rewrite below_snoc.
Qed.

Lemma join_below_slash (names : list string) (n : string) :
  simple_name n = true ->
  PosixPath.join (below d names ++ "/") n = below d (names ++ [n]).
Proof.
  intros Hn. destruct (simple_name_parts _ Hn) as [_ Hns].
  unfold PosixPath.join.
  rewrite (startswith_no_slash _ Hns), endswith_app_self, orb_true_r.
  now rewrite below_snoc, append_assoc.
Qed.

(** Joining a plain name to a path under the root stays under it. *)
Lemma join_under_root (p n : string) :
  under_root d p -> simple_name n = true ->
  under_root d (PosixPath.join p n).
Proof.
  intros [names [Hnames [-> | ->]]] Hn;
    exists (names ++ [n])%list; (split; [apply Forall_app; auto|]); left.
  - now apply join_below.
  - now apply join_below_slash.
Qed.

(** The loop of [translate_path] keeps the path of the form
    [d/n1/.../nk]. *)
Lemma translate_loop (words : list string) (names : list string) :
  Forall (fun n => Py.contains_char "/" n = false /\ n <> "") words ->
  Forall (fun n => simple_name n = true) names ->
  exists names',
    Forall (fun n => simple_name n = true) names'
    /\ fold_left translate_step words (below d names) = below d names'.
Proof.
  revert names. induction words as [|x words IH]; intros names Hw Hn.
  - exists names. auto.
  - inversion Hw as [|? ? [Hx Hxe] Hw']; subst. simpl.
    unfold translate_step at 2.
    destruct (negb (String.eqb (PosixPath.dirname x) "")
              || String.eqb x "." || String.eqb x "..") eqn:E.
    + now apply IH.
    + apply orb_false_iff in E. destruct E as [E Hdd].
      apply orb_false_iff in E. destruct E as [_ Hdot].
      assert (Hs : simple_name x = true).
      { unfold simple_name. rewrite Hdot, Hdd, Hx.
        apply String.eqb_neq in Hxe. now rewrite Hxe. }
      rewrite join_below by assumption.
      apply IH; [exact Hw'|]. apply Forall_app. auto.
Qed.

(** [translate_path] answers with a path under the root, whatever
    the request path and whatever [unquote] does. *)
Lemma translate_path_under_root {platform : Platform} (url : string) :
  under_root d (translate_path d url).
Proof.
  unfold translate_path.
  set (words := filter _ _).
  assert (Hw : Forall (fun n => Py.contains_char "/" n = false /\ n <> "")
                 words).
  { apply Forall_forall. intros n Hin. apply filter_In in Hin.
    destruct Hin as [Hin Hne]. split.
    - pose proof (split_no_sep "/"
        (PosixPath.normpath (unquote (Py.before "#" (Py.before "?" url)))))
        as Hs.
      rewrite Forall_forall in Hs. now apply Hs.
    - apply String.eqb_neq. now apply negb_true_iff. }
  destruct (translate_loop (names := []) Hw (Forall_nil _))
    as [names [Hnames Heq]].
  simpl in Heq. rewrite Heq. exists names. split; [exact Hnames|].
  destruct (Py.endswith (Py.rstrip _) "/"); [right | left]; reflexivity.
Qed.

End UnderRoot.

(** ** The file system calls of the static handler *)

Lemma bind_attr {A B : Type} (name : Handler -> A) (k : A -> M B) (s : Proc) :
  bind (attr name) k s = k (name (self s)) s.
Proof. reflexivity. Qed.

Lemma bind_modify_self {B : Type} (f : Handler -> Handler) (k : unit -> M B)
    (s : Proc) :
  bind (modify_self f) k s = k tt (mkProc (globals s) (f (self s)) (calls s)).
Proof. reflexivity. Qed.

Lemma bind_log_call {B : Type} (c : fs_call) (k : unit -> M B) (s : Proc) :
  bind (log_call c) k s
  = k tt (mkProc (globals s) (self s) (calls s ++ [c])).
Proof. reflexivity. Qed.

Lemma bind_ret {A B : Type} (a : A) (k : A -> M B) (s : Proc) :
  bind (ret a) k s = k a s.
Proof. reflexivity. Qed.

Lemma bind_bind {A B C : Type} (m : M A) (k : A -> M B) (k' : B -> M C)
    (s : Proc) :
  bind (bind m k) k' s = bind m (fun a => bind (k a) k') s.
Proof. unfold bind. destruct (m s) as [[a|e] s']; reflexivity. Qed.

Lemma bind_raise {A B : Type} (e : exception) (k : A -> M B) (s : Proc) :
  bind (raise e) k s = (Raise e, s).
Proof. reflexivity. Qed.

Lemma bind_call_return {A B : Type} (a : A) (k : A -> M B) (s : Proc) :
  bind (call (Return a)) k s = k a s.
Proof. reflexivity. Qed.

Lemma bind_call_raise {A B : Type} (e : exception) (k : A -> M B) (s : Proc) :
  bind (call (Raise e)) k s = (Raise e, s).
Proof. reflexivity. Qed.

Section Within.

Variable P : string -> Prop.

Lemma within_ret {A : Type} (a : A) : calls_within P (ret a).
Proof. intros s H. exact H. Qed.

Lemma within_bind {A B : Type} (m : M A) (k : A -> M B) :
  calls_within P m -> (forall a, calls_within P (k a)) ->
  calls_within P (bind m k).
Proof.
  intros Hm Hk s H. unfold bind. specialize (Hm s H).
  destruct (m s) as [[a|e] s']; [now apply Hk | exact Hm].
Qed.

Lemma within_raise {A : Type} (e : exception) :
  calls_within P (raise (A := A) e).
Proof. intros s H. exact H. Qed.

Lemma within_call {A : Type} (r : result A) : calls_within P (call r).
Proof. intros s H. destruct r; exact H. Qed.

Lemma within_log_call (c : fs_call) :
  P (call_path c) -> calls_within P (log_call c).
Proof.
  intros Hc s H. simpl. apply Forall_app. split; [exact H|].
  constructor; [exact Hc | constructor].
Qed.

Lemma within_frames {A : Type} (m : M A) :
  frames calls m -> calls_within P m.
Proof. intros Hm s H. now rewrite Hm. Qed.

End Within.

(** One step in the proof that a method calls the file system only
    at paths already known to satisfy the predicate. *)
Ltac within_step :=
  lazymatch goal with
  | |- calls_within _ (ret _) => apply within_ret
  | |- calls_within _ (raise _) => apply within_raise
  | |- calls_within _ (call _) => apply within_call
  | |- calls_within _ (bind _ _) => apply within_bind; [|intro]
  | |- calls_within _ (log_call _) => apply within_log_call; simpl; assumption
  | |- calls_within _ (attr _) => apply within_frames, frames_attr
  | |- calls_within _ (modify_self _) =>
      apply within_frames, calls_modify_self
  | |- calls_within _ (if ?b then _ else _) => destruct b
  | |- calls_within _ (match ?x with _ => _ end) => destruct x
  | |- _ => apply within_frames; solve [auto with methods]
  end.

Section StaticCalls.

Context {platform : Platform}.
Variable w : World.
Variable d : string.
Hypothesis d_not_empty : d <> "".
Hypothesis d_no_slash : Py.endswith d "/" = false.

Hint Resolve send_header_calls send_response_calls end_headers_calls
  send_error_calls : methods.

Lemma send_head_within (s : Proc) :
  directory (self s) = d ->
  Forall (fun c => under_root d (call_path c)) (calls s) ->
  Forall (fun c => under_root d (call_path c)) (calls (snd (send_head w s))).
Proof.
  intros Hd Hc. unfold send_head.
  rewrite bind_attr. cbv beta. rewrite bind_attr. cbv beta zeta.
  rewrite Hd.
  pose proof (@translate_path_under_root d d_not_empty d_no_slash platform
                (self_path (self s))) as Hp.
  pose proof (@join_under_root d d_not_empty d_no_slash _ "index.html"
                Hp eq_refl) as Hi.
  pose proof (@join_under_root d d_not_empty d_no_slash _ "index.htm"
                Hp eq_refl) as Hj.
  match goal with
  | |- Forall _ (calls (snd (?m s))) =>
      assert (Hm : calls_within (under_root d) m)
  end.
  { unfold os_path_isdir, os_path_isfile, send_head_file, list_directory,
      open.
    repeat within_step. }
  now apply Hm.
Qed.

Lemma do_GET_within (s : Proc) :
  directory (self s) = d ->
  Forall (fun c => under_root d (call_path c)) (calls s) ->
  Forall (fun c => under_root d (call_path c)) (calls (snd (do_GET w s))).
Proof.
  intros Hd Hc. unfold do_GET. rewrite bind_attr.
  destruct (Py.startswith (path (self s)) "/web/").
  - rewrite bind_modify_self. unfold Simple_do_GET, bind.
    match goal with
    | |- context [send_head w ?s'] =>
        pose proof (send_head_within s' Hd Hc) as H;
        destruct (send_head w s') as [[[data|]|e] s'']
    end; exact H.
  - now rewrite send_error_calls.
Qed.

End StaticCalls.

Section Absent.

Context {platform : Platform}.
Variable w : World.



Lemma handle_GET_web (r : Request) :
  r_command r = "GET" -> Py.startswith (r_path r) "/web/" = true ->
  handle_one_request w (new_handler r module_globals)
  = Simple_do_GET w
      (mkProc module_globals
         (mkHandler "GET" (Py.replace (r_path r) "/web/" "/")
            (r_headers r) (r_body r) "Sources/GUI/Resources"
            true [] []) []).
Proof.
  destruct r as [cmd p hs b]. simpl. intros -> H.
  unfold new_handler. simpl.
  rewrite handle_GET by reflexivity.
  unfold do_GET. rewrite bind_attr. cbn [self path]. rewrite H.
  rewrite bind_modify_self. reflexivity.
Qed.

Lemma exchange_GET_web (r : Request) :
  r_command r = "GET" -> Py.startswith (r_path r) "/web/" = true ->
  exchange w r
  = let s :=
      snd (Simple_do_GET w
             (mkProc module_globals
                (mkHandler "GET" (Py.replace (r_path r) "/web/" "/")
                   (r_headers r) (r_body r) "Sources/GUI/Resources"
                   true [] []) [])) in
    mkExchange (wfile (self s)) (rfile (self s)) (calls s)
      (close_connection (self s)).
Proof.
  destruct r as [cmd p hs b]. simpl. intros -> H.
  unfold exchange, AlfredHTTPRequestHandler, new_handler. simpl.
  rewrite handle_GET by reflexivity.
  unfold do_GET. rewrite bind_attr. cbn [self path]. rewrite H.
  rewrite bind_modify_self.
  destruct (Simple_do_GET w _) as [u s]. reflexivity.
Qed.

End Absent.




(** ** The rewriting of the path *)

Lemma replace_scan_absent (old new s : string) :
  Py.contains s old = false -> Py.replace_scan old new s 0 = s.
Proof.
  induction s as [|c s IH]; [reflexivity|].
  simpl. intro H. apply orb_false_iff in H. destruct H as [H1 H2].
  rewrite H1, (IH H2). reflexivity.
Qed.

(** X1. Where the rest of the path holds no further ['/web/'], the
    rewriting of [do_GET] removes the leading ['/web'] and nothing
    else. *)
Theorem replace_single_web_segment (rest : string) :
  Py.contains rest "/web/" = false ->
  Py.replace ("/web/" ++ rest) "/web/" "/" = "/" ++ rest.
Proof.
  intro H. rewrite replace_web_prefix. unfold Py.replace.
  now rewrite replace_scan_absent.
Qed.

Lemma replace_single_web_segment_witness :
  Py.contains "index-notion.html" "/web/" = false
  /\ Py.replace ("/web/" ++ "index-notion.html") "/web/" "/"
     = "/" ++ "index-notion.html".
Proof.
  split; [reflexivity|].
  apply (replace_single_web_segment "index-notion.html"). reflexivity.
Defined.

(** C1, where the code departs from it. [do_GET] replaces every
    ['/web/'] of the path, not the leading one only: for
    [GET /web/a/web/b.html] the static handler is given ['/a/b.html'];
    it opens [a/b.html] under the root and serves that file, while
    [a/web/b.html], which the claim names, is never looked at. *)
Theorem do_GET_drops_every_web_segment :
  Py.replace "/web/a/web/b.html" "/web/" "/" = "/a/b.html"
  /\ fs_calls (exchange noon (GET "/web/a/web/b.html"))
     = [IsDir "Sources/GUI/Resources/a/b.html";
        Open "Sources/GUI/Resources/a/b.html"]
  /\ body_of (respond noon (GET "/web/a/web/b.html")) = "outer"
  /\ open_rb noon "Sources/GUI/Resources/a/web/b.html"
     = Some (mkFile "inner" 1700000000).
Proof. repeat split; reflexivity. Qed.

(** ** The scenarios of the specification *)

Example scenario_1 :
  status_of (respond noon (GET "/web/index-notion.html")) = Some 200
  /\ body_of (respond noon (GET "/web/index-notion.html")) = "<h1>Alfred</h1>".
Proof. split; reflexivity. Qed.

Example scenario_2 :
  status_of (respond noon (GET "/web/missing.html")) = Some 404.
Proof. reflexivity. Qed.

Example scenario_3 :
  status_of (respond noon (GET "/favicon.ico")) = Some 404.
Proof. reflexivity. Qed.

Example scenario_4 :
  status_of (respond noon (POST "/api/anything?x=1" "any body")) = Some 503
  /\ body_of (respond noon (POST "/api/anything?x=1" "any body"))
     = unavailable_body.
Proof. split; reflexivity. Qed.

Example scenario_5 :
  status_of (respond noon (POST "/other" "")) = Some 404.
Proof. reflexivity. Qed.

(** ** The static handler, branch by branch *)

Section StaticRuns.

Context {platform : Platform}.
Variable w : World.

(** [send_error] for any method, on a handler with nothing buffered. *)
Lemma send_error_run_for (code : Z) (message : string) (g : Globals)
    (cmd p : string) (hs : list (string * string)) (b d : string)
    (out : list wire) (cs : list fs_call) (short long : string) :
  responses code = Some (short, long) ->
  (code >=? 200)
    && negb ((code =? 204) || (code =? 205) || (code =? 304)) = true ->
  send_error w code (Some message) None (at_send_head g cmd p hs b d out cs)
  = (Return tt,
     at_send_head g cmd p hs b d
       (out ++ error_reply_for cmd w code message long) cs).
Proof.
  intros Hr Hc. unfold send_error. rewrite Hr, Hc.
  unfold error_reply_for. run.
  destruct (String.eqb cmd "HEAD"); simpl;
    rewrite <- ?app_assoc; reflexivity.
Qed.

(** [send_head_file] on a path that ends with a slash: nothing is
    opened. *)
Lemma send_head_file_slash (q : string) (g : Globals) (cmd url : string)
    (hs : list (string * string)) (b d : string) (cs : list fs_call) :
  Py.endswith q "/" = true ->
  send_head_file w q (at_send_head g cmd url hs b d [] cs)
  = (Return None,
     at_send_head g cmd url hs b d
       (error_reply_for cmd w 404 "File not found"
          "Nothing matches the given URI") cs).
Proof.
  intro H. unfold send_head_file. rewrite H.
  unfold bind at 1.
  rewrite (send_error_run_for 404 "File not found" g cmd url hs b d [] cs
             (short := "Not Found") (long := "Nothing matches the given URI"))
    by reflexivity.
  reflexivity.
Qed.

(** [send_head_file] on a file that does not open, with an
    [OSError]. *)
Lemma send_head_file_missing (q : string) (g : Globals) (cmd url : string)
    (hs : list (string * string)) (b d : string) (cs : list fs_call) :
  Py.endswith q "/" = false -> open_rb w q = None ->
  open_raises w q = None ->
  send_head_file w q (at_send_head g cmd url hs b d [] cs)
  = (Return None,
     at_send_head g cmd url hs b d
       (error_reply_for cmd w 404 "File not found"
          "Nothing matches the given URI") (cs ++ [Open q])).
Proof.
  intros H Ho Hr. unfold send_head_file. rewrite H.
  unfold open. rewrite bind_bind, bind_log_call. cbv beta.
  rewrite Ho, Hr. rewrite bind_ret.
  cbn [globals self calls]. unfold bind at 1.
  rewrite (send_error_run_for 404 "File not found" g cmd url hs b d []
             (cs ++ [Open q])
             (short := "Not Found") (long := "Nothing matches the given URI"))
    by reflexivity.
  reflexivity.
Qed.

(** [send_head_file] on a path [open] raises another exception for:
    nothing is sent. *)
Lemma send_head_file_raises (q : string) (e : exception) (g : Globals)
    (cmd url : string) (hs : list (string * string)) (b d : string)
    (cs : list fs_call) :
  Py.endswith q "/" = false -> open_rb w q = None ->
  open_raises w q = Some e ->
  send_head_file w q (at_send_head g cmd url hs b d [] cs)
  = (Raise e, at_send_head g cmd url hs b d [] (cs ++ [Open q])).
Proof.
  intros H Ho Hr. unfold send_head_file. rewrite H.
  unfold open. rewrite bind_bind, bind_log_call. cbv beta.
  rewrite Ho, Hr. rewrite bind_raise. reflexivity.
Qed.

(** [send_head_file] on a file the browser already has. *)
Lemma send_head_file_not_modified (q : string) (f : File) (g : Globals)
    (cmd url : string) (hs : list (string * string)) (b d : string)
    (cs : list fs_call) :
  Py.endswith q "/" = false -> open_rb w q = Some f ->
  not_modified hs f = true ->
  send_head_file w q (at_send_head g cmd url hs b d [] cs)
  = (Return None,
     at_send_head g cmd url hs b d (not_modified_reply w) (cs ++ [Open q])).
Proof.
  intros H Ho Hn. unfold send_head_file. rewrite H.
  unfold open. rewrite bind_bind, bind_log_call. cbv beta.
  rewrite Ho. rewrite bind_ret.
  rewrite bind_attr. cbn [globals self calls headers].
  fold (not_modified hs f). rewrite Hn. reflexivity.
Qed.

(** [send_head_file] on a file to send. *)
Lemma send_head_file_found (q : string) (f : File) (g : Globals)
    (cmd url : string) (hs : list (string * string)) (b d : string)
    (cs : list fs_call) :
  Py.endswith q "/" = false -> open_rb w q = Some f ->
  not_modified hs f = false ->
  send_head_file w q (at_send_head g cmd url hs b d [] cs)
  = (Return (Some (content f)),
     at_send_head g cmd url hs b d (file_head w q f) (cs ++ [Open q])).
Proof.
  intros H Ho Hn. unfold send_head_file. rewrite H.
  unfold open. rewrite bind_bind, bind_log_call. cbv beta.
  rewrite Ho. rewrite bind_ret.
  rewrite bind_attr. cbn [globals self calls headers].
  fold (not_modified hs f). rewrite Hn. reflexivity.
Qed.

(** [list_directory] on a directory that can be read, on one that
    cannot, and on one whose page does not encode. *)
Lemma list_directory_page_sent (q page : string) (g : Globals)
    (cmd url : string) (hs : list (string * string)) (b d : string)
    (cs : list fs_call) :
  list_directory_page w q url = Return (Some page) ->
  list_directory w q (at_send_head g cmd url hs b d [] cs)
  = (Return (Some page),
     at_send_head g cmd url hs b d (listing_head w page) (cs ++ [ListDir q])).
Proof.
  intro H. unfold list_directory.
  rewrite bind_attr, bind_log_call. cbn [globals self calls self_path path].
  rewrite H. rewrite bind_call_return. reflexivity.
Qed.

Lemma list_directory_refused (q : string) (g : Globals)
    (cmd url : string) (hs : list (string * string)) (b d : string)
    (cs : list fs_call) :
  list_directory_page w q url = Return None ->
  list_directory w q (at_send_head g cmd url hs b d [] cs)
  = (Return None,
     at_send_head g cmd url hs b d
       (error_reply_for cmd w 404 "No permission to list directory"
          "Nothing matches the given URI") (cs ++ [ListDir q])).
Proof.
  intro H. unfold list_directory.
  rewrite bind_attr, bind_log_call. cbn [globals self calls self_path path].
  rewrite H. rewrite bind_call_return. unfold bind at 1.
  rewrite (send_error_run_for 404 "No permission to list directory"
             g cmd url hs b d [] (cs ++ [ListDir q])
             (short := "Not Found") (long := "Nothing matches the given URI"))
    by reflexivity.
  reflexivity.
Qed.

Lemma list_directory_raises (q : string) (e : exception) (g : Globals)
    (cmd url : string) (hs : list (string * string)) (b d : string)
    (cs : list fs_call) :
  list_directory_page w q url = Raise e ->
  list_directory w q (at_send_head g cmd url hs b d [] cs)
  = (Raise e, at_send_head g cmd url hs b d [] (cs ++ [ListDir q])).
Proof.
  intro H. unfold list_directory.
  rewrite bind_attr, bind_log_call. cbn [globals self calls self_path path].
  rewrite H. rewrite bind_call_raise. reflexivity.
Qed.

(** [send_head] up to the choice of what to send. *)
Lemma send_head_not_a_directory (g : Globals) (cmd url : string)
    (hs : list (string * string)) (b d : string) :
  isdir w (translate_path d url) = false ->
  send_head w (at_send_head g cmd url hs b d [] [])
  = send_head_file w (translate_path d url)
      (at_send_head g cmd url hs b d [] [IsDir (translate_path d url)]).
Proof.
  intro H. unfold send_head.
  rewrite bind_attr. cbv beta. rewrite bind_attr. cbv beta zeta.
  cbn [self directory self_path path]. unfold os_path_isdir.
  rewrite bind_bind, bind_log_call, bind_ret. rewrite H. reflexivity.
Qed.

(** A directory whose URL [urlsplit] does not accept: the exception
    leaves [send_head] before anything is sent. *)
Lemma send_head_urlsplit_raises (e : exception) (g : Globals)
    (cmd url : string) (hs : list (string * string)) (b d : string) :
  isdir w (translate_path d url) = true ->
  urlsplit url = Raise e ->
  send_head w (at_send_head g cmd url hs b d [] [])
  = (Raise e,
     at_send_head g cmd url hs b d [] [IsDir (translate_path d url)]).
Proof.
  intros H Hu. unfold send_head.
  rewrite bind_attr. cbv beta. rewrite bind_attr. cbv beta zeta.
  cbn [self directory self_path path]. unfold os_path_isdir.
  rewrite bind_bind, bind_log_call, bind_ret. rewrite H, Hu.
  rewrite bind_call_raise. reflexivity.
Qed.

Lemma send_head_redirect (parts : SplitResult) (g : Globals)
    (cmd url : string) (hs : list (string * string)) (b d : string) :
  isdir w (translate_path d url) = true ->
  urlsplit url = Return parts ->
  Py.endswith (url_path parts) "/" = false ->
  send_head w (at_send_head g cmd url hs b d [] [])
  = (Return None,
     at_send_head g cmd url hs b d (redirect_reply w parts)
       [IsDir (translate_path d url)]).
Proof.
  intros H Hu Hs. unfold send_head.
  rewrite bind_attr. cbv beta. rewrite bind_attr. cbv beta zeta.
  cbn [self directory self_path path]. unfold os_path_isdir.
  rewrite bind_bind, bind_log_call, bind_ret. rewrite H, Hu.
  rewrite bind_call_return. rewrite Hs. reflexivity.
Qed.

Lemma send_head_index_html (parts : SplitResult) (g : Globals)
    (cmd url : string) (hs : list (string * string)) (b d : string) :
  isdir w (translate_path d url) = true ->
  urlsplit url = Return parts ->
  Py.endswith (url_path parts) "/" = true ->
  isfile w (PosixPath.join (translate_path d url) "index.html") = true ->
  send_head w (at_send_head g cmd url hs b d [] [])
  = send_head_file w (PosixPath.join (translate_path d url) "index.html")
      (at_send_head g cmd url hs b d []
         [IsDir (translate_path d url);
          IsFile (PosixPath.join (translate_path d url) "index.html")]).
Proof.
  intros H Hu Hs Hi. unfold send_head.
  rewrite bind_attr. cbv beta. rewrite bind_attr. cbv beta zeta.
  cbn [self directory self_path path]. unfold os_path_isdir, os_path_isfile.
  rewrite bind_bind, bind_log_call, bind_ret. rewrite H, Hu.
  rewrite bind_call_return. rewrite Hs.
  cbn [negb]. rewrite bind_bind, bind_log_call, bind_ret. rewrite Hi.
  reflexivity.
Qed.

Lemma send_head_index_htm (parts : SplitResult) (g : Globals)
    (cmd url : string) (hs : list (string * string)) (b d : string) :
  isdir w (translate_path d url) = true ->
  urlsplit url = Return parts ->
  Py.endswith (url_path parts) "/" = true ->
  isfile w (PosixPath.join (translate_path d url) "index.html") = false ->
  isfile w (PosixPath.join (translate_path d url) "index.htm") = true ->
  send_head w (at_send_head g cmd url hs b d [] [])
  = send_head_file w (PosixPath.join (translate_path d url) "index.htm")
      (at_send_head g cmd url hs b d []
         [IsDir (translate_path d url);
          IsFile (PosixPath.join (translate_path d url) "index.html");
          IsFile (PosixPath.join (translate_path d url) "index.htm")]).
Proof.
  intros H Hu Hs Hi Hj. unfold send_head.
  rewrite bind_attr. cbv beta. rewrite bind_attr. cbv beta zeta.
  cbn [self directory self_path path]. unfold os_path_isdir, os_path_isfile.
  rewrite bind_bind, bind_log_call, bind_ret. rewrite H, Hu.
  rewrite bind_call_return. rewrite Hs.
  cbn [negb]. rewrite bind_bind, bind_log_call, bind_ret. rewrite Hi.
  rewrite bind_bind, bind_log_call, bind_ret. rewrite Hj.
  reflexivity.
Qed.

Lemma send_head_listing (parts : SplitResult) (g : Globals)
    (cmd url : string) (hs : list (string * string)) (b d : string) :
  isdir w (translate_path d url) = true ->
  urlsplit url = Return parts ->
  Py.endswith (url_path parts) "/" = true ->
  isfile w (PosixPath.join (translate_path d url) "index.html") = false ->
  isfile w (PosixPath.join (translate_path d url) "index.htm") = false ->
  send_head w (at_send_head g cmd url hs b d [] [])
  = list_directory w (translate_path d url)
      (at_send_head g cmd url hs b d []
         [IsDir (translate_path d url);
          IsFile (PosixPath.join (translate_path d url) "index.html");
          IsFile (PosixPath.join (translate_path d url) "index.htm")]).
Proof.
  intros H Hu Hs Hi Hj. unfold send_head.
  rewrite bind_attr. cbv beta. rewrite bind_attr. cbv beta zeta.
  cbn [self directory self_path path]. unfold os_path_isdir, os_path_isfile.
  rewrite bind_bind, bind_log_call, bind_ret. rewrite H, Hu.
  rewrite bind_call_return. rewrite Hs.
  cbn [negb]. rewrite bind_bind, bind_log_call, bind_ret. rewrite Hi.
  rewrite bind_bind, bind_log_call, bind_ret. rewrite Hj.
  reflexivity.
Qed.

Lemma status_of_app (out more : list wire) (c : Z) :
  status_of out = Some c -> status_of (out ++ more) = Some c.
Proof.
  induction out as [|x out IH]; simpl; [discriminate|].
  destruct x; auto.
Qed.

Lemma ends_with_incl {A : Type} (codes codes' : list Z) (res : result A)
    (out : list wire) :
  incl codes codes' -> ends_with codes res out -> ends_with codes' res out.
Proof.
  intros Hi H. destruct res as [a|e]; [|exact H].
  destruct H as (c & Hc & Hin). exists c. split; [exact Hc | now apply Hi].
Qed.

Lemma file_codes_known : incl [200; 304; 404] [200; 301; 304; 404].
Proof. intros c H. simpl in *. intuition. Qed.

Lemma static_codes_known : incl [200; 301; 304; 404] status_codes.
Proof. intros c H. unfold status_codes. simpl in *. intuition. Qed.

(** Whatever [send_head_file] finds, it returns after a flushed reply
    with status 200, 304 or 404, or raises with nothing sent; the
    connection is to be closed and the body of the request unread. *)
Lemma send_head_file_outcome (q : string) (g : Globals) (cmd url : string)
    (hs : list (string * string)) (b d : string) (cs : list fs_call) :
  exists res out cs',
    send_head_file w q (at_send_head g cmd url hs b d [] cs)
    = (res, at_send_head g cmd url hs b d out cs')
    /\ ends_with [200; 304; 404] res out.
Proof.
  destruct (Py.endswith q "/") eqn:Hs.
  - rewrite send_head_file_slash by exact Hs.
    do 3 eexists. split; [reflexivity|].
    exists 404. split; [reflexivity | simpl; auto].
  - destruct (open_rb w q) as [f|] eqn:Ho.
    + destruct (not_modified hs f) eqn:Hn.
      * rewrite (send_head_file_not_modified q (f := f)) by assumption.
        do 3 eexists. split; [reflexivity|].
        exists 304. split; [reflexivity | simpl; auto].
      * rewrite (send_head_file_found q (f := f)) by assumption.
        do 3 eexists. split; [reflexivity|].
        exists 200. split; [reflexivity | simpl; auto].
    + destruct (open_raises w q) as [e|] eqn:Hr.
      * rewrite (send_head_file_raises q (e := e)) by assumption.
        do 3 eexists. split; reflexivity.
      * rewrite send_head_file_missing by assumption.
        do 3 eexists. split; [reflexivity|].
        exists 404. split; [reflexivity | simpl; auto].
Qed.

Lemma send_head_outcome (g : Globals) (cmd url : string)
    (hs : list (string * string)) (b d : string) :
  exists res out cs,
    send_head w (at_send_head g cmd url hs b d [] [])
    = (res, at_send_head g cmd url hs b d out cs)
    /\ ends_with [200; 301; 304; 404] res out.
Proof.
  assert (Hfile : forall q cs,
    exists res out cs',
      send_head_file w q (at_send_head g cmd url hs b d [] cs)
      = (res, at_send_head g cmd url hs b d out cs')
      /\ ends_with [200; 301; 304; 404] res out).
  { intros q cs.
    destruct (send_head_file_outcome q g cmd url hs b d cs)
      as (res & out & cs' & E & H).
    exists res, out, cs'. split; [exact E|].
    eapply ends_with_incl; [exact file_codes_known | exact H]. }
  destruct (isdir w (translate_path d url)) eqn:Hd.
  - destruct (urlsplit url) as [parts|e] eqn:Hu.
    + destruct (Py.endswith (url_path parts) "/") eqn:Hs.
      * destruct (isfile w
                    (PosixPath.join (translate_path d url) "index.html"))
          eqn:Hi.
        -- rewrite (send_head_index_html (parts := parts)) by assumption.
           apply Hfile.
        -- destruct (isfile w
                       (PosixPath.join (translate_path d url) "index.htm"))
             eqn:Hj.
           ++ rewrite (send_head_index_htm (parts := parts)) by assumption.
              apply Hfile.
           ++ rewrite (send_head_listing (parts := parts)) by assumption.
              destruct (list_directory_page w (translate_path d url) url)
                as [[page|]|e] eqn:Hp.
              ** rewrite (list_directory_page_sent _ (page := page))
                   by assumption.
                 do 3 eexists. split; [reflexivity|].
                 exists 200. split; [reflexivity | simpl; auto].
              ** rewrite list_directory_refused by assumption.
                 do 3 eexists. split; [reflexivity|].
                 exists 404. split; [reflexivity | simpl; auto].
              ** rewrite (list_directory_raises _ (e := e)) by assumption.
                 do 3 eexists. split; reflexivity.
      * rewrite (send_head_redirect (parts := parts)) by assumption.
        do 3 eexists. split; [reflexivity|].
        exists 301. split; [reflexivity | simpl; auto].
    + rewrite (send_head_urlsplit_raises (e := e)) by assumption.
      do 3 eexists. split; reflexivity.
  - rewrite send_head_not_a_directory by assumption. apply Hfile.
Qed.

(** [super().do_GET()] after [send_head]. *)
Lemma Simple_do_GET_after (s s' : Proc) (f : option string) :
  send_head w s = (Return f, s') ->
  Simple_do_GET w s
  = (Return tt,
     match f with
     | Some data =>
         mkProc (globals s')
           (with_wfile (wfile (self s') ++ [Payload data]) (self s'))
           (calls s')
     | None => s'
     end).
Proof.
  intro H. unfold Simple_do_GET, bind. rewrite H.
  destruct f; reflexivity.
Qed.

Lemma Simple_do_GET_raised (s s' : Proc) (e : exception) :
  send_head w s = (Raise e, s') -> Simple_do_GET w s = (Raise e, s').
Proof. intro H. unfold Simple_do_GET, bind. rewrite H. reflexivity. Qed.

Lemma do_HEAD_after (s s' : Proc) (f : option string) :
  send_head w s = (Return f, s') -> do_HEAD w s = (Return tt, s').
Proof. intro H. unfold do_HEAD, bind. rewrite H. reflexivity. Qed.

Lemma do_HEAD_raised (s s' : Proc) (e : exception) :
  send_head w s = (Raise e, s') -> do_HEAD w s = (Raise e, s').
Proof. intro H. unfold do_HEAD, bind. rewrite H. reflexivity. Qed.

(** Whatever the request, the handler ends with the globals and the
    request body untouched, nothing left in the buffer and the
    connection to be closed; it has returned after a reply whose
    status is one of [status_codes], or raised with nothing sent. *)
Lemma handle_outcome (r : Request) (g : Globals) :
  exists res url out cs,
    handle_one_request w (new_handler r g)
    = (res, at_send_head g (r_command r) url (r_headers r) (r_body r)
              (DIRECTORY g) out cs)
    /\ ends_with status_codes res out.
Proof.
  destruct r as [cmd p hs b]. unfold new_handler.
  cbn [r_command r_path r_headers r_body].
  destruct (String.eqb cmd "GET") eqn:HG;
    [|destruct (String.eqb cmd "POST") eqn:HP;
      [|destruct (String.eqb cmd "HEAD") eqn:HH]].
  - apply String.eqb_eq in HG. subst cmd.
    rewrite handle_GET by reflexivity.
    destruct (Py.startswith p "/web/") eqn:Hp.
    + unfold do_GET. rewrite bind_attr. cbn [self path]. rewrite Hp.
      rewrite bind_modify_self.
      cbn [globals self calls with_path self_path command path headers rfile
           directory close_connection headers_buffer wfile].
      destruct (send_head_outcome g "GET" (Py.replace p "/web/" "/") hs b
                  (DIRECTORY g))
        as (res & out & cs & E & H).
      destruct res as [f|e].
      * erewrite Simple_do_GET_after by exact E.
        destruct H as (c & Hc & Hin).
        destruct f as [data|].
        -- exists (Return tt), (Py.replace p "/web/" "/"),
             (out ++ [Payload data])%list, cs.
           split; [reflexivity|].
           exists c. split; [now apply status_of_app|].
           now apply static_codes_known.
        -- exists (Return tt), (Py.replace p "/web/" "/"), out, cs.
           split; [reflexivity|].
           exists c. split; [exact Hc | now apply static_codes_known].
      * erewrite Simple_do_GET_raised by exact E.
        exists (Raise e), (Py.replace p "/web/" "/"), out, cs.
        split; [reflexivity | exact H].
    + rewrite do_GET_elsewhere by exact Hp.
      exists (Return tt), p, (not_found_reply w), [].
      split; [reflexivity|].
      exists 404. split; [reflexivity|].
      unfold status_codes. simpl. auto.
  - apply String.eqb_eq in HP. subst cmd.
    rewrite handle_POST by reflexivity. rewrite do_POST_run.
    destruct (Py.startswith p "/api/").
    + exists (Return tt), p, (unavailable_reply w), [].
      split; [reflexivity|].
      exists 503. split; [reflexivity|].
      unfold status_codes. simpl. auto 10.
    + exists (Return tt), p, (not_found_reply w), [].
      split; [reflexivity|].
      exists 404. split; [reflexivity|].
      unfold status_codes. simpl. auto.
  - apply String.eqb_eq in HH. subst cmd.
    rewrite handle_HEAD by reflexivity.
    destruct (send_head_outcome g "HEAD" p hs b (DIRECTORY g))
      as (res & out & cs & E & H).
    destruct res as [f|e].
    + erewrite do_HEAD_after by exact E.
      exists (Return tt), p, out, cs. split; [reflexivity|].
      destruct H as (c & Hc & Hin).
      exists c. split; [exact Hc | now apply static_codes_known].
    + erewrite do_HEAD_raised by exact E.
      exists (Raise e), p, out, cs. split; [reflexivity | exact H].
  - rewrite handle_unsupported by assumption.
    do 4 eexists. split; [reflexivity|].
    exists 501. split; [reflexivity|].
    unfold status_codes. simpl. auto 10.
Qed.

End StaticRuns.

(** ** What a request under ['/web/'] is answered with *)


Section StaticReplies.

Context {platform : Platform}.
Variable w : World.

Lemma exchange_GET_web_after (r : Request) (f : option string)
    (out : list wire) (cs : list fs_call) :
  r_command r = "GET" -> Py.startswith (r_path r) "/web/" = true ->
  send_head w
    (at_send_head module_globals "GET" (rewritten r) (r_headers r)
       (r_body r) "Sources/GUI/Resources" [] [])
  = (Return f,
     at_send_head module_globals "GET" (rewritten r) (r_headers r)
       (r_body r) "Sources/GUI/Resources" out cs) ->
  exchange w r
  = mkExchange
      (out ++ match f with Some data => [Payload data] | None => [] end)
      (r_body r) cs true.
Proof.
  intros Hc Hp E. rewrite exchange_GET_web by assumption. cbv zeta.
  fold (rewritten r). erewrite Simple_do_GET_after by exact E.
  destruct f; cbn [snd self wfile rfile close_connection calls with_wfile];
    rewrite ?app_nil_r; reflexivity.
Qed.

Lemma handle_GET_web_raised (r : Request) (e : exception)
    (out : list wire) (cs : list fs_call) :
  r_command r = "GET" -> Py.startswith (r_path r) "/web/" = true ->
  send_head w
    (at_send_head module_globals "GET" (rewritten r) (r_headers r)
       (r_body r) "Sources/GUI/Resources" [] [])
  = (Raise e,
     at_send_head module_globals "GET" (rewritten r) (r_headers r)
       (r_body r) "Sources/GUI/Resources" out cs) ->
  handle_one_request w (new_handler r module_globals)
  = (Raise e,
     at_send_head module_globals "GET" (rewritten r) (r_headers r)
       (r_body r) "Sources/GUI/Resources" out cs).
Proof.
  intros Hc Hp E. rewrite handle_GET_web by assumption.
  fold (rewritten r). now apply Simple_do_GET_raised.
Qed.



End StaticReplies.





(** X4. A GET request under ['/web/'] that resolves to a directory,
    and whose path as [do_GET] rewrote it [urlsplit] accepts and
    splits into a path that does not end in a slash, is answered with
    301; the [Location] it names is built from the rewritten path,
    without the ['/web'] the request came with. *)
Theorem get_web_directory_redirect {platform : Platform} (w : World)
    (r : Request) (parts : SplitResult) :
  r_command r = "GET" -> Py.startswith (r_path r) "/web/" = true ->
  isdir w (web_target r) = true ->
  urlsplit (rewritten r) = Return parts ->
  Py.endswith (url_path parts) "/" = false ->
  respond w r = redirect_reply w parts
  /\ status_of (respond w r) = Some 301
  /\ header_of "Location" (respond w r)
     = Some (urlunsplit
               (mkSplit (scheme parts) (netloc parts) (url_path parts ++ "/")
                  (query parts) (fragment parts)))
  /\ fs_calls (exchange w r) = [IsDir (web_target r)].
Proof.
  intros Hc Hp Hd Hu Hs.
  assert (E : exchange w r
              = mkExchange (redirect_reply w parts) (r_body r)
                  [IsDir (web_target r)] true).
  { rewrite (exchange_GET_web_after w r (f := None)
               (out := redirect_reply w parts)
               (cs := [IsDir (web_target r)]))
      by (try assumption; now apply send_head_redirect).
    now rewrite app_nil_r. }
  unfold respond. rewrite E. repeat split; reflexivity.
Qed.

Lemma get_web_directory_redirect_witness :
  (r_command (GET "/web/a") = "GET"
   /\ Py.startswith (r_path (GET "/web/a")) "/web/" = true
   /\ isdir noon (web_target (GET "/web/a")) = true
   /\ urlsplit (rewritten (GET "/web/a")) = Return (mkSplit "" "" "/a" "" "")
   /\ Py.endswith (url_path (mkSplit "" "" "/a" "" "")) "/" = false)
  /\ header_of "Location" (respond noon (GET "/web/a")) = Some "/a/".
Proof.
  split; [repeat split; reflexivity|].
  exact (proj1 (proj2 (proj2
           (get_web_directory_redirect noon (GET "/web/a")
              (parts := mkSplit "" "" "/a" "" "")
              eq_refl eq_refl eq_refl eq_refl eq_refl)))).
Defined.

(** X14. A GET request under ['/web/'] that resolves to a directory
    and whose path as [do_GET] rewrote it [urlsplit] rejects (as it
    does ['//[/..'], from [GET /web//[/..]) gets no reply: the
    exception leaves the handler after the one test for a directory,
    before anything is written. *)
Theorem get_web_directory_unsplittable {platform : Platform} (w : World)
    (r : Request) (e : exception) :
  r_command r = "GET" -> Py.startswith (r_path r) "/web/" = true ->
  isdir w (web_target r) = true ->
  urlsplit (rewritten r) = Raise e ->
  handler_result w r = Raise e
  /\ respond w r = []
  /\ fs_calls (exchange w r) = [IsDir (web_target r)].
Proof.
  intros Hc Hp Hd Hu.
  assert (E : handle_one_request w (new_handler r module_globals)
              = (Raise e,
                 at_send_head module_globals "GET" (rewritten r)
                   (r_headers r) (r_body r) "Sources/GUI/Resources" []
                   [IsDir (web_target r)])).
  { apply handle_GET_web_raised; try assumption.
    now apply send_head_urlsplit_raises. }
  unfold respond, exchange, handler_result, AlfredHTTPRequestHandler.
  rewrite E. repeat split.
Qed.

Lemma get_web_directory_unsplittable_witness :
  (r_command (GET "/web//[/..") = "GET"
   /\ Py.startswith (r_path (GET "/web//[/..")) "/web/" = true
   /\ isdir noon (web_target (GET "/web//[/..")) = true
   /\ urlsplit (rewritten (GET "/web//[/..")) = Raise ValueError)
  /\ handler_result noon (GET "/web//[/..") = Raise ValueError
  /\ respond noon (GET "/web//[/..") = [].
Proof.
  split; [repeat split; reflexivity|].
  pose proof (no_reply := get_web_directory_unsplittable noon
                (GET "/web//[/..") (e := ValueError)
                eq_refl eq_refl eq_refl eq_refl).
  exact (conj (proj1 no_reply) (proj1 (proj2 no_reply))).
Defined.



(** X7. A GET request under ['/web/'] whose resolved path ends with a
    slash and is not a directory is answered with 404 without any
    attempt to open a file, even if the file without the slash
    exists. *)
Theorem get_web_trailing_slash {platform : Platform} (w : World)
    (r : Request) :
  r_command r = "GET" -> Py.startswith (r_path r) "/web/" = true ->
  isdir w (web_target r) = false ->
  Py.endswith (web_target r) "/" = true ->
  respond w r
  = error_reply w 404 "File not found" "Nothing matches the given URI"
  /\ status_of (respond w r) = Some 404
  /\ fs_calls (exchange w r) = [IsDir (web_target r)].
Proof.
  intros Hc Hp Hd Hs.
  assert (E : exchange w r
              = mkExchange
                  (error_reply w 404 "File not found"
                     "Nothing matches the given URI")
                  (r_body r) [IsDir (web_target r)] true).
  { rewrite (exchange_GET_web_after w r (f := None)
               (out := error_reply_for "GET" w 404 "File not found"
                         "Nothing matches the given URI")
               (cs := [IsDir (web_target r)]))
      by (try assumption;
          rewrite send_head_not_a_directory by exact Hd;
          now apply send_head_file_slash).
    now rewrite app_nil_r. }
  unfold respond. rewrite E. repeat split; reflexivity.
Qed.

Lemma get_web_trailing_slash_witness :
  (r_command (GET "/web/index-notion.html/") = "GET"
   /\ Py.startswith (r_path (GET "/web/index-notion.html/")) "/web/" = true
   /\ isdir noon (web_target (GET "/web/index-notion.html/")) = false
   /\ Py.endswith (web_target (GET "/web/index-notion.html/")) "/" = true)
  /\ status_of (respond noon (GET "/web/index-notion.html/")) = Some 404
  /\ fs_calls (exchange noon (GET "/web/index-notion.html/"))
     = [IsDir "Sources/GUI/Resources/index-notion.html/"].
Proof.
  split; [repeat split; reflexivity|].
  exact (proj2 (get_web_trailing_slash noon (GET "/web/index-notion.html/")
                  eq_refl eq_refl eq_refl eq_refl)).
Defined.



(** ** Every request *)

Section EveryRequest.

Context {platform : Platform}.
Variable w : World.

Lemma exchange_outcome (r : Request) :
  exists out cs,
    exchange w r = mkExchange out (r_body r) cs true
    /\ ends_with status_codes (handler_result w r) out.
Proof.
  destruct (handle_outcome w r module_globals)
    as (res & url & out & cs & E & H).
  exists out, cs.
  unfold exchange, handler_result, AlfredHTTPRequestHandler. rewrite E.
  split; [reflexivity | exact H].
Qed.

Lemma exchange_calls_under_root (r : Request) :
  Forall (fun c => under_root "Sources/GUI/Resources" (call_path c))
    (fs_calls (exchange w r)).
Proof.
  unfold exchange, AlfredHTTPRequestHandler.
  destruct (String.eqb (r_command r) "GET") eqn:HG;
    [|destruct (String.eqb (r_command r) "HEAD") eqn:HH].
  - apply String.eqb_eq in HG.
    pose proof (@do_GET_within platform w "Sources/GUI/Resources"
                  ltac:(discriminate) eq_refl
                  (new_handler r module_globals) eq_refl (Forall_nil _)) as H.
    rewrite handle_GET by exact HG.
    destruct (do_GET w (new_handler r module_globals)) as [u s]. exact H.
  - apply String.eqb_eq in HH.
    pose proof (@send_head_within platform w "Sources/GUI/Resources"
                  ltac:(discriminate) eq_refl
                  (new_handler r module_globals) eq_refl (Forall_nil _)) as H.
    rewrite handle_HEAD by exact HH. unfold do_HEAD, bind.
    destruct (send_head w (new_handler r module_globals)) as [[f|e] s];
      exact H.
  - destruct (String.eqb (r_command r) "POST") eqn:HP.
    + apply String.eqb_eq in HP.
      pose proof (exchange_POST w r HP) as E.
      unfold exchange, AlfredHTTPRequestHandler in E. rewrite E. constructor.
    + apply String.eqb_neq in HG, HH, HP.
      pose proof (exchange_unsupported w r HG HP HH) as E.
      unfold exchange, AlfredHTTPRequestHandler in E. rewrite E. constructor.
Qed.

End EveryRequest.


(** X10. Whatever the request, the handler leaves the request body
    unread and the connection to be closed after the reply: no method
    of the handler reads [rfile] or asks for keep-alive. *)
Theorem every_exchange_closes_unread {platform : Platform} (w : World)
    (r : Request) :
  unread (exchange w r) = r_body r /\ closing (exchange w r) = true.
Proof.
  destruct (exchange_outcome w r) as (out & cs & E & _).
  rewrite E. split; reflexivity.
Qed.

(** X11. Whatever the method and the path of a request, and however
    the path is percent-encoded, every path the handler hands to the
    file system is the root directory followed by plain names, none of
    them ['.'] or ['..']. *)
Theorem every_request_stays_under_root {platform : Platform} (w : World)
    (r : Request) :
  Forall (fun c => under_root "Sources/GUI/Resources" (call_path c))
    (fs_calls (exchange w r)).
Proof. apply exchange_calls_under_root. Qed.

(** X12. Only GET requests under ['/web/'] and HEAD requests reach the
    file system: any other request is answered without a single file
    system call. *)
Theorem other_requests_leave_files_alone {platform : Platform} (w : World)
    (r : Request) :
  r_command r <> "HEAD" ->
  (r_command r = "GET" -> Py.startswith (r_path r) "/web/" = false) ->
  fs_calls (exchange w r) = [].
Proof.
  intros HH HG.
  destruct (String.eqb (r_command r) "GET") eqn:EG;
    [|destruct (String.eqb (r_command r) "POST") eqn:EP].
  - apply String.eqb_eq in EG.
    now rewrite exchange_GET_elsewhere by auto.
  - apply String.eqb_eq in EP. now rewrite exchange_POST.
  - apply String.eqb_neq in EG, EP. now rewrite exchange_unsupported.
Qed.

Lemma other_requests_leave_files_alone_witness :
  (r_command (POST "/api/../../etc/passwd" "") <> "HEAD"
   /\ (r_command (POST "/api/../../etc/passwd" "") = "GET" ->
       Py.startswith (r_path (POST "/api/../../etc/passwd" "")) "/web/"
       = false))
  /\ fs_calls (exchange noon (POST "/api/../../etc/passwd" "")) = [].
Proof.
  split; [split; discriminate|].
  apply (other_requests_leave_files_alone noon
           (POST "/api/../../etc/passwd" "")); discriminate.
Defined.

(** ** When the rewriting goes beyond the leading segment *)

Lemma length_append (a b : string) :
  String.length (a ++ b) = (String.length a + String.length b)%nat.
Proof. induction a as [|x a IH]; simpl; [reflexivity | now rewrite IH]. Qed.

Lemma startswith_length (s p : string) :
  Py.startswith s p = true -> (String.length p <= String.length s)%nat.
Proof.
  intro H. apply startswith_split in H. destruct H as [r ->].
  rewrite length_append. lia.
Qed.

Section ReplaceLength.

Variables old new : string.
Hypothesis old_not_empty : old <> "".
Hypothesis new_shorter : (String.length new < String.length old)%nat.

(** A scan never gives more than it reads, the skipped characters
    apart. *)
Lemma replace_scan_length (s : string) (k : nat) :
  (String.length (Py.replace_scan old new s k)
   + Nat.min k (String.length s) <= String.length s)%nat.
Proof.
  revert k. induction s as [|c s IH]; intro k; [simpl; lia|].
  destruct k as [|k].
  - cbn [Py.replace_scan].
    destruct (Py.startswith (String c s) old) eqn:E.
    + apply startswith_length in E. cbn [String.length] in *.
      rewrite length_append.
      specialize (IH (String.length old - 1)%nat). lia.
    + specialize (IH 0%nat). cbn [String.length]. lia.
  - cbn [Py.replace_scan String.length]. specialize (IH k). lia.
Qed.

(** A scan that meets an occurrence gives less than it reads. *)
Lemma replace_scan_shrinks (s : string) :
  Py.contains s old = true ->
  (String.length (Py.replace_scan old new s 0) < String.length s)%nat.
Proof.
  induction s as [|c s IH]; intro H.
  - exfalso. destruct old; [now apply old_not_empty | discriminate].
  - cbn [Py.replace_scan]. cbn [Py.contains] in H.
    destruct (Py.startswith (String c s) old) eqn:E.
    + apply startswith_length in E. cbn [String.length] in *.
      rewrite length_append.
      pose proof (replace_scan_length s (String.length old - 1)). lia.
    + simpl in H. specialize (IH H). cbn [String.length]. lia.
Qed.

Lemma replace_unchanged_iff (s : string) :
  Py.replace s old new = s <-> Py.contains s old = false.
Proof.
  assert (Hr : Py.replace s old new = Py.replace_scan old new s 0).
  { unfold Py.replace. destruct old; [now exfalso | reflexivity]. }
  rewrite Hr. split.
  - intro H. destruct (Py.contains s old) eqn:E; [|reflexivity].
    apply replace_scan_shrinks in E. rewrite H in E. lia.
  - apply replace_scan_absent.
Qed.

End ReplaceLength.

(** X13. The rewriting of [do_GET] removes the leading ['/web'] and
    nothing else exactly when the rest of the path holds no further
    ['/web/']: with one more occurrence the path handed to the static
    handler is another one. *)
Theorem rewriting_exact_iff_single_segment (rest : string) :
  Py.replace ("/web/" ++ rest) "/web/" "/" = "/" ++ rest
  <-> Py.contains rest "/web/" = false.
Proof.
  rewrite replace_web_prefix.
  rewrite <- (@replace_unchanged_iff "/web/" "/" ltac:(discriminate)
                ltac:(simpl; lia) rest).
  change ("/" ++ Py.replace rest "/web/" "/")
    with (String "/" (Py.replace rest "/web/" "/")).
  change ("/" ++ rest) with (String "/" rest).
  split; [intro H; injection H; auto | intro H; now rewrite H].
Qed.
